(** * FRA Atlas backend: claim lifecycle, access control and aggregation

    A shallow embedding of [backend/server.py].  The MongoDB collection
    [db.claims] is a list of claim documents in insertion order; every
    request handler is a function from the acting user, the request and the
    collection to an outcome (a returned payload or a raised exception)
    together with the collection it leaves behind.  What a handler reads from
    the outside world (the clock, [uuid.uuid4()], the reply of the language
    model) is an explicit argument. *)

From Stdlib Require Import ZArith QArith Qcanon Lia.
From Stdlib Require Import PrimFloat Uint63.
From stdpp Require Import base decidable option list strings.

Local Open Scope Z_scope.
Local Open Scope string_scope.
Local Open Scope list_scope.

(** ** Values *)

(** [datetime.utcnow()]: milliseconds since the epoch, the resolution at which
    the collection stores a date. *)
Definition datetime : Type := Z.

(** A value of a [Dict[str, Any]] payload field.  Numbers (latitude, longitude,
    [area_hectares]) are only stored, compared and handed back: a number is
    its value, a rational in lowest terms. *)
Inductive jvalue : Type :=
  | JNull
  | JStr (s : string)
  | JNum (q : Qc).

(** A Python [dict] with string keys, in insertion order. *)
Definition dict : Type := list (string * jvalue).

Fixpoint dict_get (k : string) (d : dict) : option jvalue :=
  match d with
  | [] => None
  | (k', v) :: d' => if String.eqb k k' then Some v else dict_get k d'
  end.

(** Truth value of a dictionary: [if claim.get("location")]. *)
Definition truthy (d : dict) : bool :=
  match d with
  | [] => false
  | _ :: _ => true
  end.

Global Instance jvalue_eq_dec : EqDecision jvalue.
Proof. solve_decision. Defined.

(** ** Documents *)

(** A document of [db.users], as [get_current_user] hands it to a handler. *)
Module User.
Record doc : Type := mk {
  _id : string;
  email : string;
  full_name : string;
  role : string
}.
End User.

(** The request model [FRAClaim], after validation. *)
Module FRAClaim.
Record t : Type := mk {
  id : string;
  user_id : option string;
  title : string;
  description : string;
  location : dict;
  status : string;
  documents : list string;
  ai_analysis : option string;
  created_at : datetime;
  updated_at : datetime;
  area_hectares : option Qc;
  forest_type : option string;
  community_details : option string
}.
End FRAClaim.

(** The JSON body of [POST /api/claims]: [title], [description] and
    [location] are required, every other field of the model has a default.
    The field [id] is the one the body spells [_id]. *)
Module ClaimBody.
Record t : Type := mk {
  id : option string;
  user_id : option string;
  title : string;
  description : string;
  location : dict;
  status : option string;
  documents : option (list string);
  ai_analysis : option string;
  created_at : option datetime;
  updated_at : option datetime;
  area_hectares : option Qc;
  forest_type : option string;
  community_details : option string
}.
End ClaimBody.

(** The request model [ClaimUpdate]. *)
Module ClaimUpdate.
Record t : Type := mk {
  status : string;
  officer_notes : option string
}.
End ClaimUpdate.

(** A document of [db.claims]: the fields of [claim_data.dict()], the key
    [_id], and the two fields a status update adds. *)
Module Claim.
Record doc : Type := mk {
  _id : string;
  id : string;
  user_id : option string;
  title : string;
  description : string;
  location : dict;
  status : string;
  documents : list string;
  ai_analysis : option string;
  created_at : datetime;
  updated_at : datetime;
  area_hectares : option Qc;
  forest_type : option string;
  community_details : option string;
  officer_notes : option string;
  reviewed_by : option string
}.

Global Instance doc_eq_dec : EqDecision doc.
Proof. solve_decision. Defined.
End Claim.

(** What a handler can raise. *)
Inductive exn : Type :=
  | HTTPException (status_code : Z) (detail : string)
  | DuplicateKeyError.

Inductive outcome (A : Type) : Type :=
  | Return (a : A)
  | Raise (e : exn).
Arguments Return {A} a.
Arguments Raise {A} e.

(** ** The collection *)

Definition collection : Type := list Claim.doc.

Definition by_id (claim_id : string) (c : Claim.doc) : bool :=
  String.eqb (Claim._id c) claim_id.

Definition by_user_id (uid : string) (c : Claim.doc) : bool :=
  bool_decide (Claim.user_id c = Some uid).

Definition by_status (s : string) (c : Claim.doc) : bool :=
  String.eqb (Claim.status c) s.

Definition find_one (q : Claim.doc -> bool) (cl : collection) : option Claim.doc :=
  List.find q cl.

Definition find (q : Claim.doc -> bool) (cl : collection) : list Claim.doc :=
  List.filter q cl.

Definition find_all (cl : collection) : list Claim.doc := cl.

Definition count_documents (q : Claim.doc -> bool) (cl : collection) : Z :=
  Z.of_nat (length (List.filter q cl)).

(** [insert_one]: the key [_id] is unique in a collection. *)
Definition insert_one (c : Claim.doc) (cl : collection) : outcome unit * collection :=
  if existsb (by_id (Claim._id c)) cl
  then (Raise DuplicateKeyError, cl)
  else (Return tt, cl ++ [c]).

Record UpdateResult : Type := mkUpdateResult {
  matched_count : Z;
  modified_count : Z
}.

(** [update_one]: the first document the query selects is rewritten; it counts
    as modified only when the rewrite changes it. *)
Fixpoint update_one (q : Claim.doc -> bool) (upd : Claim.doc -> Claim.doc)
    (cl : collection) : UpdateResult * collection :=
  match cl with
  | [] => (mkUpdateResult 0 0, [])
  | c :: rest =>
      if q c then
        (mkUpdateResult 1 (if bool_decide (upd c = c) then 0 else 1), upd c :: rest)
      else
        let (r, rest') := update_one q upd rest in (r, c :: rest')
  end.

(** ** Python helpers *)

(** [x in [a, b, ...]] on strings. *)
Definition py_in (x : string) (l : list string) : bool :=
  existsb (String.eqb x) l.

(** [s.endswith(suffix)]. *)
Definition endswith (s suffix : string) : bool :=
  let n := String.length s in
  let m := String.length suffix in
  (m <=? n)%nat && String.eqb (String.substring (n - m) m s) suffix.

(** A Python number: [approval_rate] is a float, or the integer literal [0]. *)
Inductive pynumber : Type :=
  | PyInt (z : Z)
  | PyFloat (f : float).

(** [float(n)] for a document count [n]; exact below 2^53. *)
Definition float_of_count (n : Z) : float :=
  PrimFloat.of_uint63 (Uint63.of_Z n).

(** [a / b * 100] on two counts: true division, then a float product. *)
Definition percentage (a b : Z) : float :=
  PrimFloat.mul (PrimFloat.div (float_of_count a) (float_of_count b))
                (float_of_count 100).

(** ** The language model *)

(** What [chat.send_message] does: it returns the model's text, or the [try]
    block around it ends in an exception, whose [str(e)] is kept. *)
Inductive llm_reply : Type :=
  | Reply (response : string)
  | Failure (e : string).

(** The message of [analyze_document_with_ai]: the attached file with its
    mime type, and the two values the prompt template interpolates. *)
Record AnalysisMessage : Type := mkAnalysisMessage {
  am_file_path : string;
  am_mime_type : string;
  am_title : string;
  am_address : jvalue
}.

(** The message of [generate_insights_for_dashboard]: the four numbers the
    prompt template interpolates and the records dumped as sample data. *)
Record InsightsMessage : Type := mkInsightsMessage {
  im_total_claims : Z;
  im_approved : Z;
  im_pending : Z;
  im_rejected : Z;
  im_sample : list Claim.doc
}.

Definition analysis_message (file_path : string) (claim_data : Claim.doc)
    : AnalysisMessage :=
  let document_file_mime :=
    if endswith file_path ".pdf" then "application/pdf" else "image/jpeg" in
  mkAnalysisMessage file_path document_file_mime
    (Claim.title claim_data)
    (default (JStr "Unknown location") (dict_get "address" (Claim.location claim_data))).

Definition analyze_document_with_ai (send_message : AnalysisMessage -> llm_reply)
    (file_path : string) (claim_data : Claim.doc) : string :=
  match send_message (analysis_message file_path claim_data) with
  | Reply response => response
  | Failure e => "AI analysis failed: " +:+ e
  end.

Record Insights : Type := mkInsights {
  ai_insights : string;
  generated_at : datetime
}.

Definition insights_message (claims_data : list Claim.doc) : InsightsMessage :=
  let total_claims := Z.of_nat (length claims_data) in
  let approved := Z.of_nat (length (List.filter (by_status "approved") claims_data)) in
  let pending := Z.of_nat (length (List.filter (by_status "pending") claims_data)) in
  let rejected := Z.of_nat (length (List.filter (by_status "rejected") claims_data)) in
  mkInsightsMessage total_claims approved pending rejected (firstn 5 claims_data).

Definition generate_insights_for_dashboard (send_message : InsightsMessage -> llm_reply)
    (claims_data : list Claim.doc) (utcnow : datetime) : Insights :=
  match send_message (insights_message claims_data) with
  | Reply response => mkInsights response utcnow
  | Failure e => mkInsights ("Insights generation failed: " +:+ e) utcnow
  end.

(** ** Request handlers *)

(** Validation of the body of [POST /api/claims] into the model [FRAClaim]:
    an absent field takes its default ([uuid4()] for [id], [utcnow()] for the
    two dates). *)
Definition FRAClaim_of_body (b : ClaimBody.t) (uuid4 : string)
    (utcnow1 utcnow2 : datetime) : FRAClaim.t :=
  {| FRAClaim.id := default uuid4 (ClaimBody.id b);
     FRAClaim.user_id := ClaimBody.user_id b;
     FRAClaim.title := ClaimBody.title b;
     FRAClaim.description := ClaimBody.description b;
     FRAClaim.location := ClaimBody.location b;
     FRAClaim.status := default "pending" (ClaimBody.status b);
     FRAClaim.documents := default [] (ClaimBody.documents b);
     FRAClaim.ai_analysis := ClaimBody.ai_analysis b;
     FRAClaim.created_at := default utcnow1 (ClaimBody.created_at b);
     FRAClaim.updated_at := default utcnow2 (ClaimBody.updated_at b);
     FRAClaim.area_hectares := ClaimBody.area_hectares b;
     FRAClaim.forest_type := ClaimBody.forest_type b;
     FRAClaim.community_details := ClaimBody.community_details b |}.

(** [POST /api/claims] *)
Definition create_claim (claim_data : FRAClaim.t) (current_user : User.doc)
    (uuid4 : string) (utcnow1 utcnow2 : datetime) (cl : collection)
    : outcome Claim.doc * collection :=
  let claim_dict :=
    {| Claim._id := uuid4;
       Claim.id := FRAClaim.id claim_data;
       Claim.user_id := Some (User._id current_user);
       Claim.title := FRAClaim.title claim_data;
       Claim.description := FRAClaim.description claim_data;
       Claim.location := FRAClaim.location claim_data;
       Claim.status := FRAClaim.status claim_data;
       Claim.documents := FRAClaim.documents claim_data;
       Claim.ai_analysis := FRAClaim.ai_analysis claim_data;
       Claim.created_at := utcnow1;
       Claim.updated_at := utcnow2;
       Claim.area_hectares := FRAClaim.area_hectares claim_data;
       Claim.forest_type := FRAClaim.forest_type claim_data;
       Claim.community_details := FRAClaim.community_details claim_data;
       Claim.officer_notes := None;
       Claim.reviewed_by := None |} in
  match insert_one claim_dict cl with
  | (Return _, cl') => (Return claim_dict, cl')
  | (Raise e, cl') => (Raise e, cl')
  end.

(** [GET /api/claims] *)
Definition get_claims (current_user : User.doc) (cl : collection)
    : outcome (list Claim.doc) * collection :=
  if py_in (User.role current_user) ["Community User"]
  then (Return (find (by_user_id (User._id current_user)) cl), cl)
  else (Return (find_all cl), cl).

(** [GET /api/claims/{claim_id}] *)
Definition get_claim (claim_id : string) (current_user : User.doc) (cl : collection)
    : outcome Claim.doc * collection :=
  match find_one (by_id claim_id) cl with
  | None => (Raise (HTTPException 404 "Claim not found"), cl)
  | Some claim =>
      if String.eqb (User.role current_user) "Community User"
         && negb (by_user_id (User._id current_user) claim)
      then (Raise (HTTPException 403 "Access denied"), cl)
      else (Return claim, cl)
  end.

(** The [$set] of [update_claim_status]. *)
Definition set_status_fields (status : string) (utcnow : datetime)
    (officer_notes : option string) (reviewed_by : string) (c : Claim.doc) : Claim.doc :=
  {| Claim._id := Claim._id c;
     Claim.id := Claim.id c;
     Claim.user_id := Claim.user_id c;
     Claim.title := Claim.title c;
     Claim.description := Claim.description c;
     Claim.location := Claim.location c;
     Claim.status := status;
     Claim.documents := Claim.documents c;
     Claim.ai_analysis := Claim.ai_analysis c;
     Claim.created_at := Claim.created_at c;
     Claim.updated_at := utcnow;
     Claim.area_hectares := Claim.area_hectares c;
     Claim.forest_type := Claim.forest_type c;
     Claim.community_details := Claim.community_details c;
     Claim.officer_notes := officer_notes;
     Claim.reviewed_by := Some reviewed_by |}.

(** [PUT /api/claims/{claim_id}/status] *)
Definition update_claim_status (claim_id : string) (update_data : ClaimUpdate.t)
    (current_user : User.doc) (utcnow : datetime) (cl : collection)
    : outcome string * collection :=
  if negb (py_in (User.role current_user) ["District Officer"; "Ministry"])
  then (Raise (HTTPException 403 "Insufficient permissions"), cl)
  else
    let update_dict :=
      set_status_fields (ClaimUpdate.status update_data) utcnow
        (ClaimUpdate.officer_notes update_data) (User._id current_user) in
    let (result, cl') := update_one (by_id claim_id) update_dict cl in
    if (modified_count result =? 0)%Z
    then (Raise (HTTPException 404 "Claim not found"), cl')
    else (Return "Claim status updated successfully", cl').

(** The [$push] and [$set] of [upload_document]. *)
Definition push_document (file_path : string) (ai_analysis : string)
    (utcnow : datetime) (c : Claim.doc) : Claim.doc :=
  {| Claim._id := Claim._id c;
     Claim.id := Claim.id c;
     Claim.user_id := Claim.user_id c;
     Claim.title := Claim.title c;
     Claim.description := Claim.description c;
     Claim.location := Claim.location c;
     Claim.status := Claim.status c;
     Claim.documents := Claim.documents c ++ [file_path];
     Claim.ai_analysis := Some ai_analysis;
     Claim.created_at := Claim.created_at c;
     Claim.updated_at := utcnow;
     Claim.area_hectares := Claim.area_hectares c;
     Claim.forest_type := Claim.forest_type c;
     Claim.community_details := Claim.community_details c;
     Claim.officer_notes := Claim.officer_notes c;
     Claim.reviewed_by := Claim.reviewed_by c |}.

Record UploadResponse : Type := mkUploadResponse {
  ur_message : string;
  ur_file_path : string;
  ur_ai_analysis : string
}.

(** [str(upload_dir / f"{claim_id}_{file.filename}")] *)
Definition upload_path (claim_id filename : string) : string :=
  "/app/uploads/" +:+ claim_id +:+ "_" +:+ filename.

(** [POST /api/claims/{claim_id}/upload].  The bytes of the file go to the
    file system, which the collection does not see. *)
Definition upload_document (send_message : AnalysisMessage -> llm_reply)
    (claim_id : string) (filename : string) (current_user : User.doc)
    (utcnow : datetime) (cl : collection)
    : outcome UploadResponse * collection :=
  match find_one (by_id claim_id) cl with
  | None => (Raise (HTTPException 404 "Claim not found"), cl)
  | Some claim =>
      if String.eqb (User.role current_user) "Community User"
         && negb (by_user_id (User._id current_user) claim)
      then (Raise (HTTPException 403 "Access denied"), cl)
      else
        let file_path := upload_path claim_id filename in
        let ai_analysis := analyze_document_with_ai send_message file_path claim in
        let (_, cl') :=
          update_one (by_id claim_id) (push_document file_path ai_analysis utcnow) cl in
        (Return (mkUploadResponse "Document uploaded and analyzed successfully"
                   file_path ai_analysis), cl')
  end.

Record Statistics : Type := mkStatistics {
  total_claims : Z;
  approved_claims : Z;
  pending_claims : Z;
  rejected_claims : Z;
  approval_rate : pynumber
}.

Record DashboardStats : Type := mkDashboardStats {
  ds_statistics : Statistics;
  ds_ai_insights : Insights;
  ds_last_updated : datetime
}.

(** The [statistics] entry of [get_dashboard_stats]. *)
Definition statistics (cl : collection) : Statistics :=
  let total := count_documents (fun _ => true) cl in
  let approved := count_documents (by_status "approved") cl in
  let pending := count_documents (by_status "pending") cl in
  let rejected := count_documents (by_status "rejected") cl in
  mkStatistics total approved pending rejected
    (if (0 <? total)%Z then PyFloat (percentage approved total) else PyInt 0).

(** [GET /api/dashboard/stats] *)
Definition get_dashboard_stats (send_message : InsightsMessage -> llm_reply)
    (current_user : User.doc) (utcnow1 utcnow2 : datetime) (cl : collection)
    : outcome DashboardStats * collection :=
  let stats := statistics cl in
  let all_claims := find_all cl in
  let insights := generate_insights_for_dashboard send_message all_claims utcnow1 in
  (Return (mkDashboardStats stats insights utcnow2), cl).

Record MapEntry : Type := mkMapEntry {
  me_id : string;
  me_title : string;
  me_status : string;
  me_location : dict;
  me_created_at : datetime
}.

Definition map_entry (claim : Claim.doc) : MapEntry :=
  mkMapEntry (Claim._id claim) (Claim.title claim) (Claim.status claim)
    (Claim.location claim) (Claim.created_at claim).

(** [GET /api/dashboard/map-data] *)
Definition get_map_data (current_user : User.doc) (cl : collection)
    : outcome (list MapEntry) * collection :=
  let claims := find_all cl in
  (Return (List.map map_entry (List.filter (fun claim => truthy (Claim.location claim)) claims)),
   cl).

(** One output document of the [$group] stage of [get_summary_report]. *)
Record StateSummary : Type := mkStateSummary {
  ss_id : jvalue;
  ss_total_claims : Z;
  ss_approved : Z;
  ss_pending : Z;
  ss_rejected : Z
}.

(** The group key ["$location.state"]: a claim without the field falls in the
    group of [null]. *)
Definition group_key (c : Claim.doc) : jvalue :=
  default JNull (dict_get "state" (Claim.location c)).

(** [{"$cond": [{"$eq": ["$status", s]}, 1, 0]}] *)
Definition cond_status (s : string) (c : Claim.doc) : Z :=
  if by_status s c then 1 else 0.

(** One claim accumulated into its group. *)
Definition accumulate (c : Claim.doc) (g : StateSummary) : StateSummary :=
  mkStateSummary (ss_id g)
    (ss_total_claims g + 1)
    (ss_approved g + cond_status "approved" c)
    (ss_pending g + cond_status "pending" c)
    (ss_rejected g + cond_status "rejected" c).

Fixpoint group_step (c : Claim.doc) (groups : list StateSummary) : list StateSummary :=
  match groups with
  | [] => [accumulate c (mkStateSummary (group_key c) 0 0 0 0)]
  | g :: groups' =>
      if bool_decide (ss_id g = group_key c)
      then accumulate c g :: groups'
      else g :: group_step c groups'
  end.

(** [db.claims.aggregate(pipeline)]: groups in order of first appearance. *)
Definition aggregate_by_state (cl : collection) : list StateSummary :=
  fold_left (fun groups c => group_step c groups) cl [].

Record SummaryReport : Type := mkSummaryReport {
  sr_report_type : string;
  sr_generated_at : datetime;
  sr_data : list StateSummary
}.

(** [GET /api/reports/summary] *)
Definition get_summary_report (current_user : User.doc) (utcnow : datetime)
    (cl : collection) : outcome SummaryReport * collection :=
  let state_summary := aggregate_by_state cl in
  (Return (mkSummaryReport "summary" utcnow state_summary), cl).

(** ** The HTTP surface *)

(** The claim routes of the application, each with what its handler reads
    from the request and from the outside world. *)
Inductive request : Type :=
  | PostClaim (claim_data : FRAClaim.t) (uuid4 : string) (utcnow1 utcnow2 : datetime)
  | GetClaims
  | GetClaim (claim_id : string)
  | PutStatus (claim_id : string) (update_data : ClaimUpdate.t) (utcnow : datetime)
  | PostUpload (send_message : AnalysisMessage -> llm_reply) (claim_id filename : string)
      (utcnow : datetime)
  | GetStats (send_message : InsightsMessage -> llm_reply) (utcnow1 utcnow2 : datetime)
  | GetMapData
  | GetSummary (utcnow : datetime).

(** The collection a request of an authenticated user leaves behind. *)
Definition handle (current_user : User.doc) (r : request) (cl : collection) : collection :=
  match r with
  | PostClaim claim_data uuid4 t1 t2 => snd (create_claim claim_data current_user uuid4 t1 t2 cl)
  | GetClaims => snd (get_claims current_user cl)
  | GetClaim claim_id => snd (get_claim claim_id current_user cl)
  | PutStatus claim_id update_data t =>
      snd (update_claim_status claim_id update_data current_user t cl)
  | PostUpload send_message claim_id filename t =>
      snd (upload_document send_message claim_id filename current_user t cl)
  | GetStats send_message t1 t2 => snd (get_dashboard_stats send_message current_user t1 t2 cl)
  | GetMapData => snd (get_map_data current_user cl)
  | GetSummary t => snd (get_summary_report current_user t cl)
  end.

(** The routes that only read. *)
Definition read_only (r : request) : Prop :=
  match r with
  | PostClaim _ _ _ _ | PutStatus _ _ _ | PostUpload _ _ _ _ => False
  | _ => True
  end.

(** The status a lookup by [_id] shows. *)
Definition status_of (claim_id : string) (cl : collection) : option string :=
  Claim.status <$> find_one (by_id claim_id) cl.

(** The four statuses the model [FRAClaim] names in its comment. *)
Definition statuses : list string :=
  ["pending"; "approved"; "rejected"; "under_review"].

(** ** The regional summary, counted directly *)

Definition in_group (k : jvalue) (c : Claim.doc) : bool :=
  bool_decide (group_key c = k).

(** The summary of the claims whose state is [k]: their number, and how many
    of them are approved, pending and rejected. *)
Definition tally (k : jvalue) (cl : collection) : StateSummary :=
  mkStateSummary k
    (count_documents (in_group k) cl)
    (count_documents (fun c => in_group k c && by_status "approved" c) cl)
    (count_documents (fun c => in_group k c && by_status "pending" c) cl)
    (count_documents (fun c => in_group k c && by_status "rejected" c) cl).

Definition lookup_group (k : jvalue) (groups : list StateSummary) : option StateSummary :=
  List.find (fun g => bool_decide (ss_id g = k)) groups.

(** ** Sample data *)

Module Sample.
Definition claim (i owner status : string) (location : dict) : Claim.doc :=
  {| Claim._id := i;
     Claim.id := i;
     Claim.user_id := Some owner;
     Claim.title := "Community forest";
     Claim.description := "Grazing and minor forest produce";
     Claim.location := location;
     Claim.status := status;
     Claim.documents := [];
     Claim.ai_analysis := None;
     Claim.created_at := 1000;
     Claim.updated_at := 1000;
     Claim.area_hectares := None;
     Claim.forest_type := None;
     Claim.community_details := None;
     Claim.officer_notes := None;
     Claim.reviewed_by := None |}.

Definition in_state (s : string) : dict := [("state", JStr s)].

Definition villager : User.doc := User.mk "u1" "u1@example.org" "U One" "Community User".
Definition officer : User.doc := User.mk "o1" "o1@example.org" "O One" "District Officer".
Definition ngo : User.doc := User.mk "n1" "n1@example.org" "N One" "NGO".

Definition c1 : Claim.doc := claim "c1" "u1" "approved" (in_state "A").
Definition c2 : Claim.doc := claim "c2" "u2" "pending" (in_state "A").
Definition c3 : Claim.doc := claim "c3" "u1" "rejected" (in_state "B").
Definition c4 : Claim.doc := claim "c4" "u2" "under_review" [("address", JStr "Ward 4")].

(** The three claims of the regional-summary example. *)
Definition three : collection := [c1; c2; c3].
Definition four : collection := [c1; c2; c3; c4].

(** A body that names another owner and a decided status. *)
Definition spoofed : ClaimBody.t :=
  {| ClaimBody.id := None;
     ClaimBody.user_id := Some "u2";
     ClaimBody.title := "Community forest";
     ClaimBody.description := "Grazing and minor forest produce";
     ClaimBody.location := in_state "A";
     ClaimBody.status := Some "approved";
     ClaimBody.documents := None;
     ClaimBody.ai_analysis := None;
     ClaimBody.created_at := None;
     ClaimBody.updated_at := None;
     ClaimBody.area_hectares := None;
     ClaimBody.forest_type := None;
     ClaimBody.community_details := None |}.

(** A body with the required fields only. *)
Definition plain : ClaimBody.t :=
  {| ClaimBody.id := None;
     ClaimBody.user_id := None;
     ClaimBody.title := "Homestead";
     ClaimBody.description := "Dwelling and kitchen garden";
     ClaimBody.location := in_state "B";
     ClaimBody.status := None;
     ClaimBody.documents := None;
     ClaimBody.ai_analysis := None;
     ClaimBody.created_at := None;
     ClaimBody.updated_at := None;
     ClaimBody.area_hectares := None;
     ClaimBody.forest_type := None;
     ClaimBody.community_details := None |}.

Definition approve : ClaimUpdate.t := ClaimUpdate.mk "approved" (Some "verified").

Definition down (_ : AnalysisMessage) : llm_reply := Failure "quota exceeded".
Definition silent (_ : InsightsMessage) : llm_reply := Failure "connection refused".
End Sample.

(** ** Relations between the documents before and after a request *)

(** The fields no handler writes once a claim is stored. *)
Definition same_identity (c c' : Claim.doc) : Prop :=
  Claim._id c' = Claim._id c
  /\ Claim.id c' = Claim.id c
  /\ Claim.user_id c' = Claim.user_id c
  /\ Claim.title c' = Claim.title c
  /\ Claim.description c' = Claim.description c
  /\ Claim.location c' = Claim.location c
  /\ Claim.created_at c' = Claim.created_at c
  /\ Claim.area_hectares c' = Claim.area_hectares c
  /\ Claim.forest_type c' = Claim.forest_type c
  /\ Claim.community_details c' = Claim.community_details c.

(** The list of documents is the same, or longer by one path at its end. *)
Definition documents_extend (c c' : Claim.doc) : Prop :=
  Claim.documents c' = Claim.documents c
  \/ exists file_path, Claim.documents c' = Claim.documents c ++ [file_path].

(** The sum of one field over the groups of a summary. *)
Definition sum_groups (f : StateSummary -> Z) (groups : list StateSummary) : Z :=
  fold_right (fun g acc => f g + acc) 0 groups.

(** ** Accounts, passwords and tokens *)

(** A document of [db.users] as [register_user] stores it. *)
Module Account.
Record doc : Type := mk {
  _id : string;
  email : string;
  password : string;
  full_name : string;
  role : string;
  phone : option string;
  address : option string;
  created_at : datetime
}.
End Account.

(** The request model [UserRegister]. *)
Module UserRegister.
Record t : Type := mk {
  email : string;
  password : string;
  full_name : string;
  role : string;
  phone : option string;
  address : option string
}.
End UserRegister.

(** The request model [UserLogin]. *)
Module UserLogin.
Record t : Type := mk {
  email : string;
  password : string
}.
End UserLogin.

(** A user document without its [password] key, as the responses carry it. *)
Module Profile.
Record t : Type := mk {
  _id : string;
  email : string;
  full_name : string;
  role : string;
  phone : option string;
  address : option string;
  created_at : datetime
}.
End Profile.

(** The payload [create_jwt_token] signs. *)
Record TokenPayload : Type := mkTokenPayload {
  tp_user_id : option string;
  tp_email : string;
  tp_role : string;
  tp_exp : datetime
}.

(** What [jwt.decode] does with a token at a given time. *)
Inductive jwt_result : Type :=
  | Decoded (payload : TokenPayload)
  | ExpiredSignatureError
  | InvalidTokenError.

(** The two libraries the handlers call: [bcrypt] ([hashpw] on a password and
    a salt, [checkpw]) and [jwt] ([encode], and [decode] at a clock reading),
    on whatever representation of tokens. *)
Record Primitives (token : Type) : Type := mkPrimitives {
  bcrypt_hashpw : string -> string -> string;
  bcrypt_checkpw : string -> string -> bool;
  jwt_encode : TokenPayload -> token;
  jwt_decode : token -> datetime -> jwt_result
}.
Arguments mkPrimitives {token} _ _ _ _.
Arguments bcrypt_hashpw {token} _ _ _.
Arguments bcrypt_checkpw {token} _ _ _.
Arguments jwt_encode {token} _ _.
Arguments jwt_decode {token} _ _ _.

(** [checkpw] accepts a password against its own hash, whatever the salt. *)
Definition bcrypt_sound {token : Type} (P : Primitives token) : Prop :=
  forall password salt, bcrypt_checkpw P password (bcrypt_hashpw P password salt) = true.


Record AuthResponse (token : Type) : Type := mkAuthResponse {
  ar_token : token;
  ar_user : Profile.t
}.
Arguments mkAuthResponse {token} _ _.
Arguments ar_token {token} _.
Arguments ar_user {token} _.

Definition users : Type := list Account.doc.

Definition by_email (email : string) (a : Account.doc) : bool :=
  String.eqb (Account.email a) email.

Definition by_account_id (uid : string) (a : Account.doc) : bool :=
  String.eqb (Account._id a) uid.

Definition find_one_user (q : Account.doc -> bool) (us : users) : option Account.doc :=
  List.find q us.

(** [db.users.insert_one] *)
Definition insert_one_user (a : Account.doc) (us : users) : outcome unit * users :=
  if existsb (by_account_id (Account._id a)) us
  then (Raise DuplicateKeyError, us)
  else (Return tt, us ++ [a]).

(** The dictionary of a user without the key [password]. *)
Definition without_password (a : Account.doc) : Profile.t :=
  Profile.mk (Account._id a) (Account.email a) (Account.full_name a) (Account.role a)
    (Account.phone a) (Account.address a) (Account.created_at a).


(** [timedelta(hours=24)] *)
Definition hours_24 : Z := 86400000.

(** [create_jwt_token]: [user_data.get("_id") or user_data.get("id")] is the
    [_id] unless it is the empty string; the dictionaries passed have no key
    [id]. *)
Definition create_jwt_token {token : Type} (P : Primitives token)
    (user_data : Profile.t) (utcnow : datetime) : token :=
  jwt_encode P
    (mkTokenPayload
       (if String.eqb (Profile._id user_data) "" then None else Some (Profile._id user_data))
       (Profile.email user_data)
       (Profile.role user_data)
       (utcnow + hours_24)).



(** [POST /api/auth/register] *)
Definition register_user {token : Type} (P : Primitives token)
    (user_data : UserRegister.t) (uuid4 salt : string) (utcnow1 utcnow2 : datetime)
    (us : users) : outcome (AuthResponse token) * users :=
  match find_one_user (by_email (UserRegister.email user_data)) us with
  | Some _ => (Raise (HTTPException 400 "Email already registered"), us)
  | None =>
      let hashed_password := bcrypt_hashpw P (UserRegister.password user_data) salt in
      let user_dict :=
        Account.mk uuid4 (UserRegister.email user_data) hashed_password
          (UserRegister.full_name user_data) (UserRegister.role user_data)
          (UserRegister.phone user_data) (UserRegister.address user_data) utcnow1 in
      match insert_one_user user_dict us with
      | (Raise e, us') => (Raise e, us')
      | (Return _, us') =>
          let user_dict_for_response := without_password user_dict in
          let tok := create_jwt_token P user_dict_for_response utcnow2 in
          (Return (mkAuthResponse tok user_dict_for_response), us')
      end
  end.

(** [POST /api/auth/login] *)
Definition login_user {token : Type} (P : Primitives token)
    (login_data : UserLogin.t) (utcnow : datetime) (us : users)
    : outcome (AuthResponse token) * users :=
  match find_one_user (by_email (UserLogin.email login_data)) us with
  | None => (Raise (HTTPException 401 "Invalid credentials"), us)
  | Some user =>
      if negb (bcrypt_checkpw P (UserLogin.password login_data) (Account.password user))
      then (Raise (HTTPException 401 "Invalid credentials"), us)
      else
        let user' := without_password user in
        (Return (mkAuthResponse (create_jwt_token P user' utcnow) user'), us)
  end.


(** Primitives to run the handlers with: the hash of a password is the
    password, the token is its payload. *)
Module SampleAuth.
Definition hashpw (password salt : string) : string := password.
Definition checkpw (password hashed : string) : bool := String.eqb password hashed.
Definition decode (tok : TokenPayload) (now : datetime) : jwt_result :=
  if (now <? tp_exp tok)%Z then Decoded tok else ExpiredSignatureError.
Definition primitives : Primitives TokenPayload :=
  mkPrimitives hashpw checkpw (fun payload => payload) decode.

Definition asha : UserRegister.t :=
  UserRegister.mk "asha@example.org" "s3cret" "Asha" "District Officer" None None.
Definition registered : users :=
  snd (register_user primitives asha "a1" "salt" 100 101 []).
End SampleAuth.

(** * Properties *)

(** ** The collection *)

Lemma find_one_split q cl c :
  find_one q cl = Some c ->
  exists l1 l2, cl = l1 ++ c :: l2 /\ Forall (fun x => q x = false) l1 /\ q c = true.
Proof.
  unfold find_one. induction cl as [|x cl IH]; simpl; [discriminate|].
  destruct (q x) eqn:Hq.
  - intros [= ->]. exists [], cl. repeat split; auto.
  - intros H. destruct (IH H) as (l1 & l2 & -> & Hl1 & Hc).
    exists (x :: l1), l2. repeat split; auto.
Qed.

Lemma find_one_app_skip q l1 l2 :
  Forall (fun x => q x = false) l1 -> find_one q (l1 ++ l2) = find_one q l2.
Proof.
  unfold find_one. induction 1 as [|x l1 Hx _ IH]; simpl; [reflexivity|].
  now rewrite Hx.
Qed.

Lemma update_one_found q upd l1 c l2 :
  Forall (fun x => q x = false) l1 -> q c = true ->
  update_one q upd (l1 ++ c :: l2)
  = (mkUpdateResult 1 (if bool_decide (upd c = c) then 0 else 1), l1 ++ upd c :: l2).
Proof.
  intros Hl1 Hc. induction Hl1 as [|x l1 Hx _ IH]; simpl.
  - now rewrite Hc.
  - now rewrite Hx, IH.
Qed.

Lemma update_one_missing q upd cl :
  find_one q cl = None -> update_one q upd cl = (mkUpdateResult 0 0, cl).
Proof.
  unfold find_one. induction cl as [|x cl IH]; simpl; [reflexivity|].
  destruct (q x); [discriminate|]. intros H. now rewrite (IH H).
Qed.

Lemma existsb_all_false q (cl : collection) :
  existsb q cl = false -> Forall (fun x => q x = false) cl.
Proof.
  induction cl as [|x cl IH]; simpl; [constructor|].
  destruct (q x) eqn:Hq; simpl; [discriminate|]. intros H. constructor; auto.
Qed.

Lemma by_id_refl c : by_id (Claim._id c) c = true.
Proof. unfold by_id. apply String.eqb_refl. Qed.

Lemma py_in_officers role :
  py_in role ["District Officer"; "Ministry"] = true
  <-> role = "District Officer" \/ role = "Ministry".
Proof.
  unfold py_in. simpl. rewrite !orb_true_iff, !String.eqb_eq. intuition discriminate.
Qed.

(** ** Creating a claim *)

(** C1: [create_claim] stores and returns a claim owned by the acting user,
    whatever [user_id] the request carries; the only way it fails is a clash
    of the generated [_id], and then nothing is stored. *)
Theorem create_claim_owner_is_actor claim_data current_user uuid4 utcnow1 utcnow2 cl :
  match create_claim claim_data current_user uuid4 utcnow1 utcnow2 cl with
  | (Return c, cl') =>
      Claim.user_id c = Some (User._id current_user)
      /\ cl' = cl ++ [c]
      /\ find_one (by_id uuid4) cl' = Some c
      /\ existsb (by_id uuid4) cl = false
  | (Raise e, cl') =>
      e = DuplicateKeyError /\ existsb (by_id uuid4) cl = true /\ cl' = cl
  end.
Proof.
  unfold create_claim, insert_one. cbn [Claim._id].
  destruct (existsb (by_id uuid4) cl) eqn:Hfresh; cbn [Claim.user_id].
  - auto.
  - repeat split; auto.
    rewrite find_one_app_skip by now apply existsb_all_false.
    unfold find_one. cbn [List.find]. now rewrite (by_id_refl (Claim.mk uuid4 _ _ _ _ _ _ _ _ _ _ _ _ _ _ _)).
Qed.

Lemma create_claim_owner_is_actor_witness :
  exists c,
    create_claim (FRAClaim_of_body Sample.spoofed "m1" 1500 1500)
      Sample.villager "c5" 1501 1502 Sample.four = (Return c, Sample.four ++ [c])
    /\ ClaimBody.user_id Sample.spoofed = Some "u2"
    /\ Claim.user_id c = Some "u1".
Proof.
  pose proof (create_claim_owner_is_actor
                (FRAClaim_of_body Sample.spoofed "m1" 1500 1500)
                Sample.villager "c5" 1501 1502 Sample.four) as H.
  destruct (create_claim _ _ _ _ _ _) as [[c|e] cl'] eqn:Hcreate.
  - destruct H as (Howner & -> & _). exists c. repeat split. exact Howner.
  - destruct H as (_ & Hclash & _). discriminate Hclash.
Defined.

(** ** Updating the status *)

(** C2: a status update by a user who is neither a District Officer nor the
    Ministry is refused with 403 "Insufficient permissions" and the collection
    is left as it was, so the target claim keeps its status and [updated_at]. *)
Theorem update_claim_status_denied claim_id update_data current_user utcnow cl :
  User.role current_user <> "District Officer" ->
  User.role current_user <> "Ministry" ->
  update_claim_status claim_id update_data current_user utcnow cl
  = (Raise (HTTPException 403 "Insufficient permissions"), cl).
Proof.
  intros Hd Hm. unfold update_claim_status.
  destruct (py_in (User.role current_user) ["District Officer"; "Ministry"]) eqn:Hin.
  - apply py_in_officers in Hin. tauto.
  - reflexivity.
Qed.

Lemma update_claim_status_denied_witness :
  update_claim_status "c2" Sample.approve Sample.villager 2000 Sample.four
  = (Raise (HTTPException 403 "Insufficient permissions"), Sample.four).
Proof.
  apply update_claim_status_denied; vm_compute; discriminate.
Defined.




(** ** Uploading a document *)





(** ** Listing claims *)

(** C5: [get_claims] returns to a Community User exactly the claims whose
    [user_id] is the user's id, in collection order, and to a user of any
    other role the whole collection. *)
Theorem get_claims_visibility current_user cl :
  (User.role current_user = "Community User" ->
   exists claims,
     get_claims current_user cl = (Return claims, cl)
     /\ claims = List.filter (by_user_id (User._id current_user)) cl
     /\ forall c, In c claims <-> In c cl /\ Claim.user_id c = Some (User._id current_user))
  /\ (User.role current_user <> "Community User" ->
      get_claims current_user cl = (Return cl, cl)).
Proof.
  unfold get_claims, py_in. cbn [existsb]. rewrite orb_false_r. split.
  - intros ->. cbn. eexists. split; [reflexivity|]. split; [reflexivity|].
    intros c. unfold find. rewrite filter_In. unfold by_user_id.
    now rewrite bool_decide_eq_true.
  - intros Hr. apply String.eqb_neq in Hr. now rewrite Hr.
Qed.

Lemma get_claims_visibility_witness :
  (exists claims,
      get_claims Sample.villager Sample.four = (Return claims, Sample.four)
      /\ claims = [Sample.c1; Sample.c3]
      /\ ~ In Sample.c2 claims)
  /\ get_claims Sample.ngo Sample.four = (Return Sample.four, Sample.four).
Proof.
  destruct (get_claims_visibility Sample.villager Sample.four) as [Hown _].
  destruct (get_claims_visibility Sample.ngo Sample.four) as [_ Hall].
  split.
  - destruct (Hown eq_refl) as (claims & Hget & Hfilter & Hin).
    exists claims. split; [exact Hget|]. split; [exact Hfilter|].
    intros H2. apply Hin in H2. destruct H2 as [_ H2]. discriminate H2.
  - apply Hall. discriminate.
Defined.

(** ** The status of a claim over the requests *)

Lemma find_one_app_found q (cl l : collection) c :
  find_one q cl = Some c -> find_one q (cl ++ l) = Some c.
Proof.
  unfold find_one. induction cl as [|x cl IH]; simpl; [discriminate|].
  destruct (q x); auto.
Qed.

Lemma find_one_app_none q (cl l : collection) :
  find_one q cl = None -> find_one q (cl ++ l) = find_one q l.
Proof.
  unfold find_one. induction cl as [|x cl IH]; simpl; [reflexivity|].
  destruct (q x); [discriminate | exact IH].
Qed.

Lemma update_one_snd q upd cl :
  snd (update_one q upd cl) = cl
  \/ exists l1 c l2,
       cl = l1 ++ c :: l2 /\ q c = true /\ snd (update_one q upd cl) = l1 ++ upd c :: l2.
Proof.
  destruct (find_one q cl) as [c|] eqn:Hfind.
  - right. destruct (find_one_split _ _ _ Hfind) as (l1 & l2 & -> & Hl1 & Hc).
    exists l1, c, l2. now rewrite update_one_found.
  - left. now rewrite update_one_missing.
Qed.

(** Replacing a document by one with the same [_id] shows at a lookup only
    when the lookup lands on that document. *)
Lemma status_of_replace j l1 c c' l2 :
  Claim._id c' = Claim._id c ->
  status_of j (l1 ++ c' :: l2) = status_of j (l1 ++ c :: l2)
  \/ (Claim._id c = j
      /\ status_of j (l1 ++ c' :: l2) = Some (Claim.status c')
      /\ status_of j (l1 ++ c :: l2) = Some (Claim.status c)).
Proof.
  intros Hid. unfold status_of, find_one.
  induction l1 as [|x l1 IH]; simpl.
  - unfold by_id. rewrite Hid.
    destruct (String.eqb_spec (Claim._id c) j); [right | left]; auto.
  - destruct (by_id j x); [left; reflexivity | exact IH].
Qed.

Lemma update_claim_status_snd claim_id update_data current_user utcnow cl :
  snd (update_claim_status claim_id update_data current_user utcnow cl)
  = if py_in (User.role current_user) ["District Officer"; "Ministry"]
    then snd (update_one (by_id claim_id)
                (set_status_fields (ClaimUpdate.status update_data) utcnow
                   (ClaimUpdate.officer_notes update_data) (User._id current_user)) cl)
    else cl.
Proof.
  unfold update_claim_status.
  destruct (py_in (User.role current_user) ["District Officer"; "Ministry"]);
    cbn [negb]; [|reflexivity].
  destruct (update_one _ _ cl) as [result cl'].
  now destruct (modified_count result =? 0)%Z.
Qed.

Lemma upload_document_snd send_message claim_id filename current_user utcnow cl :
  snd (upload_document send_message claim_id filename current_user utcnow cl) = cl
  \/ exists note,
       snd (upload_document send_message claim_id filename current_user utcnow cl)
       = snd (update_one (by_id claim_id)
                (push_document (upload_path claim_id filename) note utcnow) cl).
Proof.
  unfold upload_document.
  destruct (find_one (by_id claim_id) cl) as [claim|]; [|left; reflexivity].
  destruct (String.eqb (User.role current_user) "Community User"
            && negb (by_user_id (User._id current_user) claim)); [left; reflexivity|].
  right. exists (analyze_document_with_ai send_message (upload_path claim_id filename) claim).
  cbv zeta. now destruct (update_one _ _ cl).
Qed.

Lemma create_claim_snd claim_data current_user uuid4 utcnow1 utcnow2 cl :
  snd (create_claim claim_data current_user uuid4 utcnow1 utcnow2 cl) = cl
  \/ exists c,
       snd (create_claim claim_data current_user uuid4 utcnow1 utcnow2 cl) = cl ++ [c]
       /\ Claim._id c = uuid4
       /\ Claim.status c = FRAClaim.status claim_data.
Proof.
  unfold create_claim, insert_one. cbn [Claim._id].
  destruct (existsb (by_id uuid4) cl); [left; reflexivity|].
  right. eexists. repeat split.
Qed.

Lemma handle_read_only current_user r cl :
  read_only r -> handle current_user r cl = cl.
Proof.
  destruct r; cbn [handle read_only]; try tauto; intros _; try reflexivity.
  - unfold get_claims. now destruct (py_in _ _).
  - unfold get_claim. destruct (find_one _ cl); [|reflexivity].
    now destruct (_ && _).
Qed.

(** C6, as the code has it: the status is a free string.  A claim created from
    a body without [status] starts as "pending", and one created from a body
    with a status carries that status.  Once a claim is in the collection, the
    status a lookup shows changes under no request other than a status update
    on that claim by a District Officer or the Ministry, and it then becomes
    the status string of that request. *)
Theorem status_changes_by_update_only current_user r cl claim_id :
  (forall s,
      status_of claim_id cl = Some s ->
      status_of claim_id (handle current_user r cl) = Some s
      \/ exists update_data utcnow,
           r = PutStatus claim_id update_data utcnow
           /\ (User.role current_user = "District Officer"
               \/ User.role current_user = "Ministry")
           /\ status_of claim_id (handle current_user r cl)
              = Some (ClaimUpdate.status update_data))
  /\ (forall s,
        status_of claim_id cl = None ->
        status_of claim_id (handle current_user r cl) = Some s ->
        exists claim_data utcnow1 utcnow2,
          r = PostClaim claim_data claim_id utcnow1 utcnow2
          /\ s = FRAClaim.status claim_data)
  /\ (forall body uuid4 utcnow1 utcnow2,
        FRAClaim.status (FRAClaim_of_body body uuid4 utcnow1 utcnow2)
        = default "pending" (ClaimBody.status body)).
Proof.
  split; [|split; [|reflexivity]].
  - intros s Hs.
    destruct r as [cd u4 t1 t2| |cid|cid ud t|sm cid fn t|sm t1 t2| |t];
      try (left; now rewrite handle_read_only by exact I); cbn [handle].
    + left. destruct (create_claim_snd cd current_user u4 t1 t2 cl) as [->|(c & -> & _)];
        [exact Hs|].
      unfold status_of in *. destruct (find_one (by_id claim_id) cl) as [x|] eqn:Hx;
        [|discriminate]. now rewrite (find_one_app_found _ _ _ _ Hx).
    + rewrite update_claim_status_snd.
      destruct (py_in (User.role current_user) _) eqn:Hrole; [|left; exact Hs].
      apply py_in_officers in Hrole.
      destruct (update_one_snd (by_id cid)
                  (set_status_fields (ClaimUpdate.status ud) t
                     (ClaimUpdate.officer_notes ud) (User._id current_user)) cl)
        as [->|(l1 & c & l2 & -> & Hc & ->)]; [left; exact Hs|].
      set (c' := set_status_fields _ _ _ _ c).
      destruct (status_of_replace claim_id l1 c c' l2 eq_refl) as [->|(Hid & -> & _)];
        [left; exact Hs|].
      right. exists ud, t. apply String.eqb_eq in Hc. repeat split; auto; congruence.
    + left. destruct (upload_document_snd sm cid fn current_user t cl) as [->|[note ->]];
        [exact Hs|].
      destruct (update_one_snd (by_id cid)
                  (push_document (upload_path cid fn) note t) cl)
        as [->|(l1 & c & l2 & -> & Hc & ->)]; [exact Hs|].
      set (c' := push_document _ _ _ c).
      destruct (status_of_replace claim_id l1 c c' l2 eq_refl) as [->|(_ & -> & Hold)];
        [exact Hs|]. now rewrite <- Hs, Hold.
  - intros s Hnone Hs.
    destruct r as [cd u4 t1 t2| |cid|cid ud t|sm cid fn t|sm t1 t2| |t];
      try (rewrite handle_read_only in Hs by exact I; congruence); cbn [handle] in Hs.
    + destruct (create_claim_snd cd current_user u4 t1 t2 cl)
        as [Heq|(c & Heq & Hid & Hst)]; rewrite Heq in Hs; [congruence|].
      unfold status_of in Hnone, Hs.
      destruct (find_one (by_id claim_id) cl) as [x|] eqn:Hx; [discriminate|].
      rewrite (find_one_app_none _ _ _ Hx) in Hs.
      unfold find_one in Hs. cbn [List.find] in Hs.
      unfold by_id in Hs at 1. rewrite Hid in Hs.
      destruct (String.eqb_spec u4 claim_id) as [->|]; [|discriminate].
      exists cd, t1, t2. split; [reflexivity|]. simpl in Hs. congruence.
    + rewrite update_claim_status_snd in Hs.
      destruct (py_in (User.role current_user) _); [|congruence].
      destruct (update_one_snd (by_id cid)
                  (set_status_fields (ClaimUpdate.status ud) t
                     (ClaimUpdate.officer_notes ud) (User._id current_user)) cl)
        as [Heq|(l1 & c & l2 & -> & Hc & Heq)]; rewrite Heq in Hs; [congruence|].
      set (c' := set_status_fields _ _ _ _ c) in Hs.
      destruct (status_of_replace claim_id l1 c c' l2 eq_refl) as [H|(_ & _ & H)];
        congruence.
    + destruct (upload_document_snd sm cid fn current_user t cl) as [Heq|[note Heq]];
        rewrite Heq in Hs; [congruence|].
      destruct (update_one_snd (by_id cid)
                  (push_document (upload_path cid fn) note t) cl)
        as [Heq'|(l1 & c & l2 & -> & Hc & Heq')]; rewrite Heq' in Hs; [congruence|].
      set (c' := push_document _ _ _ c) in Hs.
      destruct (status_of_replace claim_id l1 c c' l2 eq_refl) as [H|(_ & _ & H)];
        congruence.
Qed.

Lemma status_changes_by_update_only_witness :
  status_of "c2" (handle Sample.villager (PutStatus "c2" Sample.approve 2000) Sample.four)
  = Some "pending"
  /\ status_of "c1" (handle Sample.ngo (PostUpload Sample.down "c1" "map.jpg" 2000) Sample.four)
     = Some "approved"
  /\ FRAClaim.status (FRAClaim_of_body Sample.plain "m1" 1500 1500) = "pending".
Proof.
  destruct (status_changes_by_update_only Sample.villager
              (PutStatus "c2" Sample.approve 2000) Sample.four "c2") as (Hkeep & _ & Hnew).
  destruct (status_changes_by_update_only Sample.ngo
              (PostUpload Sample.down "c1" "map.jpg" 2000) Sample.four "c1") as (Hkeep' & _).
  split; [|split].
  - destruct (Hkeep "pending" eq_refl) as [H|(ud & t & _ & [Hr|Hr] & _)];
      [exact H | discriminate Hr | discriminate Hr].
  - destruct (Hkeep' "approved" eq_refl) as [H|(ud & t & Hr & _)];
      [exact H | discriminate Hr].
  - exact (Hnew Sample.plain "m1" 1500 1500).
Defined.

(** C6 as stated fails twice: a Community User who posts a claim whose body
    says "approved" gets a claim that starts as approved, with no status
    update involved; and an officer's status update to "on_hold", which is
    none of the four statuses, is carried out. *)
Lemma status_confined_counterexample :
  (exists c cl',
      create_claim (FRAClaim_of_body Sample.spoofed "m1" 1500 1500)
        Sample.villager "c5" 1501 1502 Sample.four = (Return c, cl')
      /\ status_of "c5" Sample.four = None
      /\ status_of "c5" cl' = Some "approved"
      /\ "approved" <> "pending")
  /\ (exists cl',
        update_claim_status "c2" (ClaimUpdate.mk "on_hold" None) Sample.officer 2000
          Sample.four = (Return "Claim status updated successfully", cl')
        /\ status_of "c2" cl' = Some "on_hold"
        /\ ~ In "on_hold" statuses).
Proof.
  split.
  - eexists. eexists. split; [vm_compute; reflexivity|].
    split; [reflexivity|]. split; [reflexivity | discriminate].
  - eexists. split; [vm_compute; reflexivity|]. split; [reflexivity|].
    unfold statuses. simpl. intuition discriminate.
Qed.

(** ** Dashboard statistics *)

Lemma count_documents_all cl :
  count_documents (fun _ => true) cl = Z.of_nat (length cl).
Proof.
  unfold count_documents. f_equal. f_equal.
  induction cl as [|x cl IH]; simpl; congruence.
Qed.

Lemma three_statuses_bounded cl :
  count_documents (by_status "approved") cl
  + count_documents (by_status "pending") cl
  + count_documents (by_status "rejected") cl
  <= Z.of_nat (length cl).
Proof.
  unfold count_documents.
  induction cl as [|x cl IH]; [simpl; lia|].
  cbn [List.filter].
  destruct (by_status "approved" x) eqn:Ea, (by_status "pending" x) eqn:Ep,
           (by_status "rejected" x) eqn:Er;
    unfold by_status in Ea, Ep, Er;
    try (apply String.eqb_eq in Ea); try (apply String.eqb_eq in Ep);
    try (apply String.eqb_eq in Er); try congruence;
    cbn [length]; lia.
Qed.

(** C7 as stated fails: with one approved claim out of two the approval rate
    the code reports is 50.0, not the ratio 1/2; and over a single claim under
    review the statistics are total 1 and three zero counts, so no field
    counts the claims under review. *)
Lemma approval_rate_counterexample :
  approval_rate (statistics [Sample.c1; Sample.c2]) = PyFloat 50%float
  /\ approved_claims (statistics [Sample.c1; Sample.c2]) = 1
  /\ total_claims (statistics [Sample.c1; Sample.c2]) = 2
  /\ approval_rate (statistics [Sample.c1; Sample.c2])
     <> PyFloat (PrimFloat.div (float_of_count 1) (float_of_count 2))
  /\ statistics [Sample.c4] = mkStatistics 1 0 0 0 (PyFloat 0%float).
Proof.
  repeat split; try (vm_compute; reflexivity).
  intros H.
  apply (f_equal (fun n => match n with
                           | PyFloat f => PrimFloat.ltb f 1%float
                           | PyInt _ => false
                           end)) in H.
  vm_compute in H. discriminate H.
Qed.

(** C7, as the code has it: the dashboard statistics are the number of claims,
    the numbers of approved, pending and rejected claims (claims under review
    have no count of their own), and the approval rate as a percentage,
    [approved / total * 100], which is the integer 0 over an empty collection;
    the request never fails. *)
Theorem dashboard_statistics send_message current_user utcnow1 utcnow2 cl :
  exists d,
    get_dashboard_stats send_message current_user utcnow1 utcnow2 cl = (Return d, cl)
    /\ ds_statistics d = statistics cl
    /\ total_claims (statistics cl) = Z.of_nat (length cl)
    /\ approved_claims (statistics cl) = count_documents (by_status "approved") cl
    /\ pending_claims (statistics cl) = count_documents (by_status "pending") cl
    /\ rejected_claims (statistics cl) = count_documents (by_status "rejected") cl
    /\ approved_claims (statistics cl) + pending_claims (statistics cl)
       + rejected_claims (statistics cl) <= total_claims (statistics cl)
    /\ (cl = [] -> approval_rate (statistics cl) = PyInt 0)
    /\ (cl <> [] ->
        approval_rate (statistics cl)
        = PyFloat (percentage (approved_claims (statistics cl)) (total_claims (statistics cl)))).
Proof.
  eexists. split; [reflexivity|]. cbn [ds_statistics].
  unfold statistics. cbn [total_claims approved_claims pending_claims rejected_claims
                          approval_rate].
  rewrite count_documents_all.
  repeat split.
  - apply three_statuses_bounded.
  - now intros ->.
  - intros Hne. destruct cl as [|x cl]; [congruence|].
    replace (0 <? Z.of_nat (length (x :: cl)))%Z with true; [reflexivity|].
    symmetry. apply Z.ltb_lt. simpl length. lia.
Qed.

Lemma dashboard_statistics_witness :
  exists d,
    get_dashboard_stats Sample.silent Sample.villager 4000 4001 Sample.four
    = (Return d, Sample.four)
    /\ ds_statistics d = mkStatistics 4 1 1 1 (PyFloat 25%float)
    /\ approval_rate (statistics []) = PyInt 0.
Proof.
  destruct (dashboard_statistics Sample.silent Sample.villager 4000 4001 Sample.four)
    as (d & Hd & Hs & _).
  destruct (dashboard_statistics Sample.silent Sample.villager 4000 4001 [])
    as (_ & _ & _ & _ & _ & _ & _ & _ & Hzero & _).
  exists d. split; [exact Hd|]. split; [|exact (Hzero eq_refl)].
  rewrite Hs. vm_compute. reflexivity.
Defined.

(** ** The regional summary *)

Lemma count_documents_snoc q cl c :
  count_documents q (cl ++ [c]) = count_documents q cl + (if q c then 1 else 0).
Proof.
  unfold count_documents. rewrite List.filter_app, length_app. cbn [List.filter].
  destruct (q c); cbn [length]; lia.
Qed.

Lemma count_documents_none q cl :
  (forall c, In c cl -> q c = false) -> count_documents q cl = 0.
Proof.
  unfold count_documents. induction cl as [|x cl IH]; intros H; [reflexivity|].
  cbn [List.filter]. rewrite (H x) by now left. apply IH. intros c Hc. apply H. now right.
Qed.

Lemma tally_snoc k cl c :
  tally k (cl ++ [c]) = if in_group k c then accumulate c (tally k cl) else tally k cl.
Proof.
  unfold tally, accumulate, cond_status. rewrite !count_documents_snoc.
  destruct (in_group k c); cbn [andb ss_id ss_total_claims ss_approved ss_pending ss_rejected].
  - reflexivity.
  - now rewrite !Z.add_0_r.
Qed.

Lemma tally_empty_group k cl :
  existsb (in_group k) cl = false -> tally k cl = mkStateSummary k 0 0 0 0.
Proof.
  intros H. unfold tally.
  assert (Hall : forall c, In c cl -> in_group k c = false).
  { intros c Hc. destruct (in_group k c) eqn:E; [|reflexivity].
    assert (existsb (in_group k) cl = true) by (apply existsb_exists; eauto). congruence. }
  rewrite !count_documents_none; auto; intros c Hc; now rewrite (Hall c Hc).
Qed.

Lemma lookup_group_step k c groups :
  lookup_group k (group_step c groups)
  = if in_group k c
    then Some (accumulate c (default (mkStateSummary k 0 0 0 0) (lookup_group k groups)))
    else lookup_group k groups.
Proof.
  unfold lookup_group, in_group.
  induction groups as [|g groups IH]; cbn [group_step List.find default].
  - cbn [accumulate ss_id]. destruct (decide (group_key c = k)) as [->|Hne].
    + now rewrite !bool_decide_eq_true_2.
    + now rewrite !bool_decide_eq_false_2.
  - destruct (decide (ss_id g = group_key c)) as [Hg|Hg].
    + rewrite (bool_decide_eq_true_2 _ Hg). cbn [List.find accumulate ss_id].
      destruct (decide (group_key c = k)) as [Hk|Hk].
      * rewrite (bool_decide_eq_true_2 (group_key c = k) Hk).
        rewrite (bool_decide_eq_true_2 (ss_id g = k)) by congruence. reflexivity.
      * rewrite (bool_decide_eq_false_2 (group_key c = k) Hk).
        now rewrite (bool_decide_eq_false_2 (ss_id g = k)) by congruence.
    + rewrite (bool_decide_eq_false_2 _ Hg). cbn [List.find].
      destruct (decide (ss_id g = k)) as [Hk|Hk].
      * rewrite (bool_decide_eq_true_2 _ Hk).
        now rewrite (bool_decide_eq_false_2 (group_key c = k)) by congruence.
      * rewrite (bool_decide_eq_false_2 _ Hk). exact IH.
Qed.

Lemma aggregate_by_state_snoc cl c :
  aggregate_by_state (cl ++ [c]) = group_step c (aggregate_by_state cl).
Proof. unfold aggregate_by_state. now rewrite fold_left_app. Qed.

(** The group of a key is the direct count over the claims of that key, and a
    key no claim has gets no group. *)
Lemma lookup_group_aggregate k cl :
  lookup_group k (aggregate_by_state cl)
  = if existsb (in_group k) cl then Some (tally k cl) else None.
Proof.
  induction cl as [|c cl IH] using rev_ind; [reflexivity|].
  rewrite aggregate_by_state_snoc, lookup_group_step, IH, tally_snoc, existsb_app.
  cbn [existsb]. rewrite orb_false_r.
  destruct (in_group k c); [|now rewrite orb_false_r].
  rewrite orb_true_r.
  destruct (existsb (in_group k) cl) eqn:E; cbn [default]; [reflexivity|].
  now rewrite tally_empty_group.
Qed.

Lemma group_step_keys c groups :
  (In (group_key c) (map ss_id groups)
   /\ map ss_id (group_step c groups) = map ss_id groups)
  \/ (~ In (group_key c) (map ss_id groups)
      /\ map ss_id (group_step c groups) = map ss_id groups ++ [group_key c]).
Proof.
  induction groups as [|g groups IH]; cbn [group_step map].
  - right. split; [simpl; tauto | reflexivity].
  - destruct (decide (ss_id g = group_key c)) as [Hg|Hg].
    + rewrite (bool_decide_eq_true_2 _ Hg). left. split; [now left | reflexivity].
    + rewrite (bool_decide_eq_false_2 _ Hg). cbn [map].
      destruct IH as [[Hin ->]|[Hin ->]].
      * left. split; [now right | reflexivity].
      * right. split; [|reflexivity]. intros [E|E]; auto.
Qed.

Lemma aggregate_by_state_keys cl : List.NoDup (map ss_id (aggregate_by_state cl)).
Proof.
  induction cl as [|c cl IH] using rev_ind; [constructor|].
  rewrite aggregate_by_state_snoc.
  destruct (group_step_keys c (aggregate_by_state cl)) as [[Hin ->]|[Hin ->]]; [exact IH|].
  apply List.NoDup_app; repeat split; auto.
  - constructor; [simpl; tauto | constructor].
  - intros k Hk [<-|[]]. contradiction.
Qed.

Lemma lookup_group_in g groups :
  List.NoDup (map ss_id groups) -> In g groups -> lookup_group (ss_id g) groups = Some g.
Proof.
  unfold lookup_group. induction groups as [|x groups IH]; [intros _ []|].
  cbn [map List.find]. intros Hnd [->|Hin].
  - now rewrite bool_decide_eq_true_2.
  - apply List.NoDup_cons_iff in Hnd as [Hx Hnd].
    rewrite bool_decide_eq_false_2; [now apply IH|].
    intros E. apply Hx. rewrite E. now apply in_map.
Qed.

Lemma lookup_group_some k g groups :
  lookup_group k groups = Some g -> In g groups /\ ss_id g = k.
Proof.
  unfold lookup_group. intros H. apply find_some in H as [Hin Hk].
  split; [exact Hin|]. now apply bool_decide_eq_true in Hk.
Qed.

Lemma aggregate_by_state_complete cl c :
  In c cl -> In (tally (group_key c) cl) (aggregate_by_state cl).
Proof.
  intros Hc.
  assert (Hex : existsb (in_group (group_key c)) cl = true).
  { apply existsb_exists. exists c. split; [exact Hc|].
    unfold in_group. now apply bool_decide_eq_true_2. }
  pose proof (lookup_group_aggregate (group_key c) cl) as H. rewrite Hex in H.
  now apply lookup_group_some in H.
Qed.

Lemma aggregate_by_state_sound cl g :
  In g (aggregate_by_state cl) ->
  g = tally (ss_id g) cl /\ exists c, In c cl /\ group_key c = ss_id g.
Proof.
  intros Hg.
  pose proof (lookup_group_in g _ (aggregate_by_state_keys cl) Hg) as H.
  rewrite lookup_group_aggregate in H.
  destruct (existsb (in_group (ss_id g)) cl) eqn:Hex; [|discriminate].
  split; [congruence|].
  apply existsb_exists in Hex as (c & Hc & Hk). exists c. split; [exact Hc|].
  unfold in_group in Hk. now apply bool_decide_eq_true in Hk.
Qed.

(** C8: the regional summary has one group for every value of
    [location.state] that occurs, none twice; each claim is counted in the
    group of its state, a claim without a state in the group of [null]; a
    group carries the number of its claims and how many of them are approved,
    pending and rejected.  Over the three claims of the example the groups are
    A with total 2, approved 1, pending 1, rejected 0 and B with total 1,
    approved 0, pending 0, rejected 1. *)
Theorem regional_summary_groups current_user utcnow cl :
  exists groups,
    get_summary_report current_user utcnow cl
    = (Return (mkSummaryReport "summary" utcnow groups), cl)
    /\ List.NoDup (map ss_id groups)
    /\ (forall c, In c cl -> In (tally (group_key c) cl) groups)
    /\ (forall g, In g groups ->
          g = tally (ss_id g) cl /\ exists c, In c cl /\ group_key c = ss_id g)
    /\ (forall c, dict_get "state" (Claim.location c) = None -> group_key c = JNull)
    /\ (forall c, dict_get "state" (Claim.location c) = Some JNull -> group_key c = JNull)
    /\ aggregate_by_state Sample.three
       = [mkStateSummary (JStr "A") 2 1 1 0; mkStateSummary (JStr "B") 1 0 0 1].
Proof.
  exists (aggregate_by_state cl). split; [reflexivity|].
  split; [apply aggregate_by_state_keys|].
  split; [intros c; apply aggregate_by_state_complete|].
  split; [intros g; apply aggregate_by_state_sound|].
  split; [|split].
  - intros c H. unfold group_key. now rewrite H.
  - intros c H. unfold group_key. now rewrite H.
  - vm_compute. reflexivity.
Qed.

Lemma regional_summary_groups_witness :
  exists groups,
    get_summary_report Sample.ngo 5000 Sample.four
    = (Return (mkSummaryReport "summary" 5000 groups), Sample.four)
    /\ In (mkStateSummary JNull 1 0 0 0) groups
    /\ In (mkStateSummary (JStr "A") 2 1 1 0) groups.
Proof.
  destruct (regional_summary_groups Sample.ngo 5000 Sample.four)
    as (groups & Hget & _ & Hin & _).
  exists groups. split; [exact Hget|]. split.
  - apply (Hin Sample.c4). vm_compute. auto.
  - apply (Hin Sample.c1). vm_compute. auto.
Defined.

(** ** Dashboard insights *)

(** C9: [get_dashboard_stats] always returns a payload.  Its insights carry
    the clock reading as [generated_at] and, as text, the model's answer as
    it came or, when the call failed, the note "Insights generation failed:
    ..."; the message sent to the model holds the total and the approved,
    pending and rejected counts of the statistics and the first five claims of
    the collection. *)
Theorem dashboard_insights_degrade send_message current_user utcnow1 utcnow2 cl :
  exists d,
    get_dashboard_stats send_message current_user utcnow1 utcnow2 cl = (Return d, cl)
    /\ generated_at (ds_ai_insights d) = utcnow1
    /\ (forall e,
          send_message (insights_message cl) = Failure e ->
          ai_insights (ds_ai_insights d) = "Insights generation failed: " +:+ e)
    /\ (forall response,
          send_message (insights_message cl) = Reply response ->
          ai_insights (ds_ai_insights d) = response)
    /\ im_sample (insights_message cl) = firstn 5 cl
    /\ (length (im_sample (insights_message cl)) <= 5)%nat
    /\ im_total_claims (insights_message cl) = total_claims (ds_statistics d)
    /\ im_approved (insights_message cl) = approved_claims (ds_statistics d)
    /\ im_pending (insights_message cl) = pending_claims (ds_statistics d)
    /\ im_rejected (insights_message cl) = rejected_claims (ds_statistics d).
Proof.
  eexists. split; [reflexivity|].
  cbn [ds_ai_insights ds_statistics]. unfold generate_insights_for_dashboard, find_all.
  split; [now destruct (send_message _)|].
  split; [now intros e ->|].
  split; [now intros response ->|].
  split; [reflexivity|].
  split; [cbn [insights_message im_sample]; apply firstn_le_length|].
  unfold statistics, insights_message.
  cbn [im_total_claims im_approved im_pending im_rejected
       total_claims approved_claims pending_claims rejected_claims].
  now rewrite count_documents_all.
Qed.

Lemma dashboard_insights_degrade_witness :
  exists d,
    get_dashboard_stats Sample.silent Sample.officer 4000 4001 Sample.four
    = (Return d, Sample.four)
    /\ ds_ai_insights d
       = mkInsights "Insights generation failed: connection refused" 4000.
Proof.
  destruct (dashboard_insights_degrade Sample.silent Sample.officer 4000 4001 Sample.four)
    as (d & Hd & Hat & Hfail & _).
  exists d. split; [exact Hd|].
  specialize (Hfail _ eq_refl). destruct (ds_ai_insights d) as [text at_].
  cbn in Hat, Hfail. now rewrite Hat, Hfail.
Defined.

(** ** The aggregate endpoints and ownership *)

(** C10: for a user of any role the map data has the entry (id, title, status,
    location, creation time) of every claim of the collection whose location
    is not empty, and of no other; the dashboard statistics and the regional
    summary are computed over the whole collection; none of the three depends
    on who asks. *)
Theorem aggregates_ignore_ownership send_message current_user utcnow1 utcnow2 utcnow cl :
  (exists entries,
      get_map_data current_user cl = (Return entries, cl)
      /\ (forall c, In c cl -> truthy (Claim.location c) = true ->
            In (mkMapEntry (Claim._id c) (Claim.title c) (Claim.status c)
                  (Claim.location c) (Claim.created_at c)) entries)
      /\ (forall e, In e entries ->
            exists c, In c cl /\ truthy (Claim.location c) = true /\ e = map_entry c))
  /\ (exists d,
        get_dashboard_stats send_message current_user utcnow1 utcnow2 cl = (Return d, cl)
        /\ ds_statistics d = statistics cl
        /\ total_claims (ds_statistics d) = Z.of_nat (length cl))
  /\ (exists groups,
        get_summary_report current_user utcnow cl
        = (Return (mkSummaryReport "summary" utcnow groups), cl)
        /\ forall c, In c cl -> In (tally (group_key c) cl) groups)
  /\ (forall other_user,
        get_map_data other_user cl = get_map_data current_user cl
        /\ get_dashboard_stats send_message other_user utcnow1 utcnow2 cl
           = get_dashboard_stats send_message current_user utcnow1 utcnow2 cl
        /\ get_summary_report other_user utcnow cl
           = get_summary_report current_user utcnow cl).
Proof.
  split; [|split; [|split]].
  - eexists. split; [reflexivity|]. unfold find_all. split.
    + intros c Hc Hloc. apply (in_map map_entry). apply filter_In. auto.
    + intros e He. apply in_map_iff in He as (c & <- & Hc).
      apply filter_In in Hc as [Hc Hloc]. eauto.
  - eexists. split; [reflexivity|]. cbn [ds_statistics]. split; [reflexivity|].
    unfold statistics. cbn [total_claims]. apply count_documents_all.
  - exists (aggregate_by_state cl). split; [reflexivity|].
    intros c. apply aggregate_by_state_complete.
  - intros other_user. repeat split.
Qed.

Lemma aggregates_ignore_ownership_witness :
  (exists claims,
      get_claims Sample.villager Sample.four = (Return claims, Sample.four)
      /\ ~ In Sample.c2 claims)
  /\ get_claim "c2" Sample.villager Sample.four
     = (Raise (HTTPException 403 "Access denied"), Sample.four)
  /\ (exists entries,
        get_map_data Sample.villager Sample.four = (Return entries, Sample.four)
        /\ In (mkMapEntry "c2" "Community forest" "pending" (Sample.in_state "A") 1000)
             entries).
Proof.
  destruct (aggregates_ignore_ownership Sample.silent Sample.villager 4000 4001 5000
              Sample.four) as ((entries & Hget & Hin & _) & _).
  split; [|split].
  - eexists. split; [reflexivity|]. vm_compute. intuition discriminate.
  - reflexivity.
  - exists entries. split; [exact Hget|].
    apply (Hin Sample.c2); [vm_compute; auto | reflexivity].
Defined.

(** * Further properties of the claim handlers *)

(** ** What a request does to the collection *)

Lemma same_identity_refl c : same_identity c c.
Proof. unfold same_identity. repeat split. Qed.

Lemma create_claim_cases claim_data current_user uuid4 utcnow1 utcnow2 cl :
  (existsb (by_id uuid4) cl = true
   /\ create_claim claim_data current_user uuid4 utcnow1 utcnow2 cl
      = (Raise DuplicateKeyError, cl))
  \/ (existsb (by_id uuid4) cl = false
      /\ exists c,
           create_claim claim_data current_user uuid4 utcnow1 utcnow2 cl
           = (Return c, cl ++ [c])
           /\ Claim._id c = uuid4
           /\ Claim.user_id c = Some (User._id current_user)
           /\ Claim.created_at c = utcnow1
           /\ Claim.updated_at c = utcnow2
           /\ Claim.status c = FRAClaim.status claim_data
           /\ Claim.documents c = FRAClaim.documents claim_data).
Proof.
  unfold create_claim, insert_one. cbn [Claim._id].
  destruct (existsb (by_id uuid4) cl); [left; auto|].
  right. split; [reflexivity|]. eexists. repeat split.
Qed.

(** Every request leaves the collection as it was, appends one claim with a
    new [_id], or rewrites one claim in place, keeping its identity and at
    most extending its documents. *)
Lemma handle_shape current_user r cl :
  handle current_user r cl = cl
  \/ (exists c,
        handle current_user r cl = cl ++ [c]
        /\ existsb (by_id (Claim._id c)) cl = false)
  \/ (exists l1 c c' l2,
        cl = l1 ++ c :: l2
        /\ handle current_user r cl = l1 ++ c' :: l2
        /\ same_identity c c'
        /\ documents_extend c c').
Proof.
  destruct r as [cd u4 t1 t2| |cid|cid ud t|sm cid fn t|sm t1 t2| |t];
    try (left; now apply handle_read_only); cbn [handle].
  - destruct (create_claim_cases cd current_user u4 t1 t2 cl)
      as [[_ ->]|[Hfresh (c & -> & Hid & _)]]; [left; reflexivity|].
    right. left. exists c. cbn [snd]. now rewrite Hid.
  - rewrite update_claim_status_snd.
    destruct (py_in (User.role current_user) _); [|left; reflexivity].
    destruct (update_one_snd (by_id cid)
                (set_status_fields (ClaimUpdate.status ud) t
                   (ClaimUpdate.officer_notes ud) (User._id current_user)) cl)
      as [->|(l1 & c & l2 & -> & _ & ->)]; [left; reflexivity|].
    right. right. eexists l1, c, _, l2. split; [reflexivity|]. split; [reflexivity|].
    split; [unfold same_identity; repeat split | left; reflexivity].
  - destruct (upload_document_snd sm cid fn current_user t cl) as [->|[note ->]];
      [left; reflexivity|].
    destruct (update_one_snd (by_id cid)
                (push_document (upload_path cid fn) note t) cl)
      as [->|(l1 & c & l2 & -> & _ & ->)]; [left; reflexivity|].
    right. right. eexists l1, c, _, l2. split; [reflexivity|]. split; [reflexivity|].
    split; [unfold same_identity; repeat split | right; eexists; reflexivity].
Qed.

Lemma find_one_replace j l1 c0 c' l2 c :
  Claim._id c' = Claim._id c0 ->
  find_one (by_id j) (l1 ++ c0 :: l2) = Some c ->
  find_one (by_id j) (l1 ++ c' :: l2) = Some c
  \/ (c = c0 /\ find_one (by_id j) (l1 ++ c' :: l2) = Some c').
Proof.
  intros Hid. unfold find_one.
  induction l1 as [|x l1 IH]; cbn [app List.find].
  - replace (by_id j c') with (by_id j c0) by (unfold by_id; now rewrite Hid).
    destruct (by_id j c0); [|now left].
    intros [= <-]. now right.
  - destruct (by_id j x); [now left | exact IH].
Qed.

(** X1: whatever the request and whoever sends it, a claim that a lookup by
    [_id] finds is still found afterwards, with the same owner, the same
    creation date and the same [_id], title, description, location and
    metadata. *)
Theorem handle_keeps_identity current_user r cl claim_id c :
  find_one (by_id claim_id) cl = Some c ->
  exists c',
    find_one (by_id claim_id) (handle current_user r cl) = Some c'
    /\ Claim._id c' = Claim._id c
    /\ Claim.user_id c' = Claim.user_id c
    /\ Claim.created_at c' = Claim.created_at c
    /\ Claim.title c' = Claim.title c
    /\ Claim.description c' = Claim.description c
    /\ Claim.location c' = Claim.location c
    /\ same_identity c c'.
Proof.
  intros Hfind.
  assert (Hgoal : exists c', find_one (by_id claim_id) (handle current_user r cl) = Some c'
                             /\ same_identity c c').
  { destruct (handle_shape current_user r cl)
      as [->|[(x & -> & _)|(l1 & c0 & c' & l2 & -> & -> & Hsame & _)]].
    - exists c. split; [exact Hfind | apply same_identity_refl].
    - exists c. split; [now apply find_one_app_found | apply same_identity_refl].
    - destruct Hsame as (Hid & Hrest).
      destruct (find_one_replace claim_id l1 c0 c' l2 c Hid Hfind) as [H|[-> H]].
      + exists c. split; [exact H | apply same_identity_refl].
      + exists c'. split; [exact H | split; assumption]. }
  destruct Hgoal as (c' & Hc' & Hsame). exists c'.
  pose proof Hsame as (H1 & _ & H3 & H4 & H5 & H6 & H7 & _).
  split; [exact Hc'|]. do 6 (split; [assumption|]). exact Hsame.
Qed.

Lemma handle_keeps_identity_witness :
  exists c',
    find_one (by_id "c2")
      (handle Sample.officer (PutStatus "c2" Sample.approve 2000) Sample.four) = Some c'
    /\ Claim.user_id c' = Some "u2"
    /\ Claim.created_at c' = 1000.
Proof.
  destruct (handle_keeps_identity Sample.officer (PutStatus "c2" Sample.approve 2000)
              Sample.four "c2" Sample.c2 eq_refl)
    as (c' & Hfind & _ & Howner & Hcreated & _).
  exists c'. repeat split; assumption.
Defined.

(** X2: the documents of a stored claim are append-only: after any request the
    claim's document list is the old list, or the old list with one path
    added at its end. *)
Theorem handle_documents_append_only current_user r cl claim_id c :
  find_one (by_id claim_id) cl = Some c ->
  exists c',
    find_one (by_id claim_id) (handle current_user r cl) = Some c'
    /\ (Claim.documents c' = Claim.documents c
        \/ exists file_path, Claim.documents c' = Claim.documents c ++ [file_path])
    /\ (length (Claim.documents c) <= length (Claim.documents c')
        <= S (length (Claim.documents c)))%nat.
Proof.
  intros Hfind.
  assert (Hgoal : exists c', find_one (by_id claim_id) (handle current_user r cl) = Some c'
                             /\ documents_extend c c').
  { destruct (handle_shape current_user r cl)
      as [->|[(x & -> & _)|(l1 & c0 & c' & l2 & -> & -> & Hsame & Hdocs)]].
    - exists c. split; [exact Hfind | now left].
    - exists c. split; [now apply find_one_app_found | now left].
    - destruct Hsame as (Hid & _).
      destruct (find_one_replace claim_id l1 c0 c' l2 c Hid Hfind) as [H|[-> H]].
      + exists c. split; [exact H | now left].
      + exists c'. split; [exact H | exact Hdocs]. }
  destruct Hgoal as (c' & Hc' & Hdocs). exists c'. split; [exact Hc'|].
  split; [exact Hdocs|].
  destruct Hdocs as [->|[p ->]]; [lia|]. rewrite length_app. simpl. lia.
Qed.

Lemma handle_documents_append_only_witness :
  exists c',
    find_one (by_id "c1")
      (handle Sample.villager (PostUpload Sample.down "c1" "patta.pdf" 3000) Sample.four)
    = Some c'
    /\ (length (Claim.documents Sample.c1) <= length (Claim.documents c')
        <= S (length (Claim.documents Sample.c1)))%nat.
Proof.
  destruct (handle_documents_append_only Sample.villager
              (PostUpload Sample.down "c1" "patta.pdf" 3000) Sample.four "c1" Sample.c1
              eq_refl) as (c' & Hfind & _ & Hlen).
  exists c'. split; assumption.
Defined.

Lemma existsb_by_id_false claim_id cl :
  existsb (by_id claim_id) cl = false -> ~ In claim_id (map Claim._id cl).
Proof.
  intros H Hin. apply in_map_iff in Hin as (c & Hid & Hc).
  assert (existsb (by_id claim_id) cl = true); [|congruence].
  apply existsb_exists. exists c. split; [exact Hc|].
  unfold by_id. rewrite Hid. apply String.eqb_refl.
Qed.

(** X3: the [_id]s of the collection stay pairwise different under every
    request. *)
Theorem handle_keeps_ids_unique current_user r cl :
  List.NoDup (map Claim._id cl) ->
  List.NoDup (map Claim._id (handle current_user r cl)).
Proof.
  intros Hnd.
  destruct (handle_shape current_user r cl)
    as [->|[(c & -> & Hfresh)|(l1 & c & c' & l2 & -> & -> & (Hid & _) & _)]].
  - exact Hnd.
  - rewrite map_app. cbn [map]. apply List.NoDup_app. repeat split; auto.
    + constructor; [simpl; tauto | constructor].
    + intros k Hk [<-|[]]. now apply (existsb_by_id_false _ _ Hfresh).
  - rewrite map_app in *. cbn [map] in *. now rewrite Hid.
Qed.

Lemma handle_keeps_ids_unique_witness :
  List.NoDup (map Claim._id
                (handle Sample.villager
                   (PostClaim (FRAClaim_of_body Sample.plain "m1" 1500 1500) "c5" 1501 1502)
                   Sample.four)).
Proof.
  apply handle_keeps_ids_unique.
  repeat constructor; simpl; intuition discriminate.
Defined.

(** X4: no request removes a claim: the collection keeps its length or grows
    by one. *)
Theorem handle_never_shrinks current_user r cl :
  (length cl <= length (handle current_user r cl) <= S (length cl))%nat.
Proof.
  destruct (handle_shape current_user r cl)
    as [->|[(c & -> & _)|(l1 & c & c' & l2 & -> & -> & _)]].
  - lia.
  - rewrite length_app. simpl. lia.
  - rewrite !length_app. simpl. lia.
Qed.

(** ** Reading one claim *)

Lemma find_one_some_in q cl c : find_one q cl = Some c -> In c cl /\ q c = true.
Proof. unfold find_one. apply find_some. Qed.

Lemma find_one_unique_id cl c :
  List.NoDup (map Claim._id cl) -> In c cl -> find_one (by_id (Claim._id c)) cl = Some c.
Proof.
  unfold find_one. induction cl as [|x cl IH]; [intros _ []|].
  cbn [map List.find]. intros Hnd Hin. apply List.NoDup_cons_iff in Hnd as [Hx Hnd].
  destruct Hin as [->|Hin]; [now rewrite by_id_refl|].
  destruct (by_id (Claim._id c) x) eqn:E; [|now apply IH].
  exfalso. apply Hx. unfold by_id in E. apply String.eqb_eq in E. rewrite E.
  now apply in_map.
Qed.

(** X5: [get_claim] never writes; on an id that is not in the collection it
    answers 404 "Claim not found", to a Community User who does not own the
    claim 403 "Access denied", and in every other case it returns the claim. *)
Theorem get_claim_access claim_id current_user cl :
  snd (get_claim claim_id current_user cl) = cl
  /\ (find_one (by_id claim_id) cl = None ->
      fst (get_claim claim_id current_user cl)
      = Raise (HTTPException 404 "Claim not found"))
  /\ (forall c,
        find_one (by_id claim_id) cl = Some c ->
        (User.role current_user = "Community User"
         /\ Claim.user_id c <> Some (User._id current_user) ->
         fst (get_claim claim_id current_user cl)
         = Raise (HTTPException 403 "Access denied"))
        /\ (User.role current_user <> "Community User"
            \/ Claim.user_id c = Some (User._id current_user) ->
            fst (get_claim claim_id current_user cl) = Return c)).
Proof.
  unfold get_claim, by_user_id.
  destruct (find_one (by_id claim_id) cl) as [c|]; [|repeat split; congruence].
  split; [now destruct (_ && _)|]. split; [discriminate|].
  intros c0 [= <-]. split.
  - intros [-> Hne]. now rewrite (bool_decide_eq_false_2 _ Hne).
  - intros [Hr|Ho].
    + apply String.eqb_neq in Hr. now rewrite Hr.
    + rewrite (bool_decide_eq_true_2 _ Ho). now rewrite andb_false_r.
Qed.

Lemma get_claim_access_witness :
  fst (get_claim "c9" Sample.officer Sample.four)
  = Raise (HTTPException 404 "Claim not found")
  /\ fst (get_claim "c2" Sample.villager Sample.four)
     = Raise (HTTPException 403 "Access denied")
  /\ fst (get_claim "c2" Sample.ngo Sample.four) = Return Sample.c2.
Proof.
  destruct (get_claim_access "c9" Sample.officer Sample.four) as (_ & Hmissing & _).
  destruct (get_claim_access "c2" Sample.villager Sample.four) as (_ & _ & Hdenied).
  destruct (get_claim_access "c2" Sample.ngo Sample.four) as (_ & _ & Hallowed).
  split; [exact (Hmissing eq_refl)|]. split.
  - apply (Hdenied Sample.c2 eq_refl). split; [reflexivity | discriminate].
  - apply (Hallowed Sample.c2 eq_refl). left. discriminate.
Defined.

(** X6: the single read and the list agree: a claim [get_claim] returns to a
    user is in the list [get_claims] returns to that user, and when the [_id]s
    of the collection are pairwise different every claim of that list is
    returned by [get_claim] on its [_id]. *)
Theorem get_claim_agrees_with_get_claims current_user cl c :
  (forall claim_id,
      fst (get_claim claim_id current_user cl) = Return c ->
      exists claims, get_claims current_user cl = (Return claims, cl) /\ In c claims)
  /\ (List.NoDup (map Claim._id cl) ->
      forall claims,
        get_claims current_user cl = (Return claims, cl) ->
        In c claims ->
        get_claim (Claim._id c) current_user cl = (Return c, cl)).
Proof.
  split.
  - intros claim_id. unfold get_claim, get_claims, py_in. cbn [existsb].
    rewrite orb_false_r.
    destruct (find_one (by_id claim_id) cl) as [x|] eqn:Hfind; [|discriminate].
    apply find_one_some_in in Hfind as [Hin _].
    destruct (String.eqb (User.role current_user) "Community User"); cbn [andb].
    + destruct (by_user_id (User._id current_user) x) eqn:Hown; [|discriminate].
      cbn [negb fst]. intros [= <-]. eexists. split; [reflexivity|].
      unfold find. apply filter_In. auto.
    + cbn [fst]. intros [= <-]. eexists. split; [reflexivity | exact Hin].
  - intros Hnd claims. unfold get_claims, get_claim, py_in. cbn [existsb].
    rewrite orb_false_r.
    destruct (String.eqb (User.role current_user) "Community User"); cbn [andb].
    + intros [= <-] Hin. unfold find in Hin. apply filter_In in Hin as [Hin Hown].
      rewrite (find_one_unique_id _ _ Hnd Hin). now rewrite Hown.
    + intros [= <-] Hin. unfold find_all in Hin.
      now rewrite (find_one_unique_id _ _ Hnd Hin).
Qed.

Lemma get_claim_agrees_with_get_claims_witness :
  get_claim "c3" Sample.villager Sample.four = (Return Sample.c3, Sample.four).
Proof.
  destruct (get_claim_agrees_with_get_claims Sample.villager Sample.four Sample.c3)
    as [_ Hlist].
  apply (Hlist ltac:(repeat constructor; simpl; intuition discriminate)
               [Sample.c1; Sample.c3] eq_refl).
  simpl. auto.
Defined.

(** X7: a claim that has just been created can be read back: [get_claim] on
    the new [_id] returns it to its creator, it is in the creator's
    [get_claims] list, and any other Community User is refused with 403. *)
Theorem create_claim_then_read claim_data current_user uuid4 utcnow1 utcnow2 cl :
  existsb (by_id uuid4) cl = false ->
  exists c cl',
    create_claim claim_data current_user uuid4 utcnow1 utcnow2 cl = (Return c, cl')
    /\ get_claim uuid4 current_user cl' = (Return c, cl')
    /\ (exists claims, get_claims current_user cl' = (Return claims, cl') /\ In c claims)
    /\ (forall other,
          User.role other = "Community User" ->
          User._id other <> User._id current_user ->
          get_claim uuid4 other cl' = (Raise (HTTPException 403 "Access denied"), cl')).
Proof.
  intros Hfresh.
  destruct (create_claim_cases claim_data current_user uuid4 utcnow1 utcnow2 cl)
    as [[Hdup _]|[_ (c & Hcreate & Hid & Howner & _)]]; [congruence|].
  exists c, (cl ++ [c]). split; [exact Hcreate|].
  assert (Hfind : find_one (by_id uuid4) (cl ++ [c]) = Some c).
  { rewrite find_one_app_skip by now apply existsb_all_false.
    unfold find_one. cbn [List.find]. rewrite <- Hid. now rewrite by_id_refl. }
  assert (Hown : by_user_id (User._id current_user) c = true)
    by (unfold by_user_id; now apply bool_decide_eq_true_2).
  split; [|split].
  - unfold get_claim. rewrite Hfind, Hown. now rewrite andb_false_r.
  - unfold get_claims, py_in. cbn [existsb]. rewrite orb_false_r.
    destruct (String.eqb (User.role current_user) "Community User").
    + eexists. split; [reflexivity|]. unfold find. apply filter_In.
      split; [apply in_or_app; right; now left | exact Hown].
    + eexists. split; [reflexivity|]. unfold find_all. apply in_or_app. right. now left.
  - intros other Hrole Hne. unfold get_claim. rewrite Hfind, Hrole.
    unfold by_user_id. rewrite bool_decide_eq_false_2; [reflexivity|].
    rewrite Howner. congruence.
Qed.

Lemma create_claim_then_read_witness :
  exists c cl',
    create_claim (FRAClaim_of_body Sample.plain "m1" 1500 1500)
      Sample.villager "c5" 1501 1502 Sample.four = (Return c, cl')
    /\ get_claim "c5" Sample.villager cl' = (Return c, cl')
    /\ get_claim "c5" (User.mk "u2" "u2@example.org" "U Two" "Community User") cl'
       = (Raise (HTTPException 403 "Access denied"), cl').
Proof.
  destruct (create_claim_then_read (FRAClaim_of_body Sample.plain "m1" 1500 1500)
              Sample.villager "c5" 1501 1502 Sample.four eq_refl)
    as (c & cl' & Hcreate & Hget & _ & Hother).
  exists c, cl'. split; [exact Hcreate|]. split; [exact Hget|].
  apply Hother; [reflexivity | discriminate].
Defined.

(** ** A status update that changes nothing *)

Lemma set_status_fields_idempotent status utcnow notes reviewer c :
  set_status_fields status utcnow notes reviewer
    (set_status_fields status utcnow notes reviewer c)
  = set_status_fields status utcnow notes reviewer c.
Proof. reflexivity. Qed.

Lemma update_claim_status_unchanged claim_id update_data current_user utcnow cl claim :
  py_in (User.role current_user) ["District Officer"; "Ministry"] = true ->
  find_one (by_id claim_id) cl = Some claim ->
  set_status_fields (ClaimUpdate.status update_data) utcnow
    (ClaimUpdate.officer_notes update_data) (User._id current_user) claim = claim ->
  update_claim_status claim_id update_data current_user utcnow cl
  = (Raise (HTTPException 404 "Claim not found"), cl).
Proof.
  intros Hrole Hfind Hsame. unfold update_claim_status. rewrite Hrole. cbn [negb].
  destruct (find_one_split _ _ _ Hfind) as (l1 & l2 & -> & Hl1 & Hc).
  rewrite (update_one_found _ _ _ _ _ Hl1 Hc).
  rewrite (bool_decide_eq_true_2 _ Hsame). cbn [modified_count Z.eqb].
  now rewrite Hsame.
Qed.

(** X8: the handler takes [modified_count == 0] for a missing claim: when a
    District Officer or the Ministry sends a status update on an existing claim
    and sends the same update again at the same clock reading, the second
    request is answered 404 "Claim not found" and changes nothing, although
    the claim is in the collection and carries the requested status. *)
Theorem update_claim_status_repeated claim_id update_data current_user utcnow cl claim :
  User.role current_user = "District Officer" \/ User.role current_user = "Ministry" ->
  find_one (by_id claim_id) cl = Some claim ->
  exists cl1,
    snd (update_claim_status claim_id update_data current_user utcnow cl) = cl1
    /\ status_of claim_id cl1 = Some (ClaimUpdate.status update_data)
    /\ update_claim_status claim_id update_data current_user utcnow cl1
       = (Raise (HTTPException 404 "Claim not found"), cl1).
Proof.
  intros Hrole Hfind. apply py_in_officers in Hrole.
  eexists. split; [reflexivity|].
  rewrite update_claim_status_snd, Hrole.
  destruct (find_one_split _ _ _ Hfind) as (l1 & l2 & -> & Hl1 & Hc).
  rewrite (update_one_found _ _ _ _ _ Hl1 Hc). cbn [snd].
  set (upd := set_status_fields _ _ _ _).
  assert (Hfind1 : find_one (by_id claim_id) (l1 ++ upd claim :: l2) = Some (upd claim)).
  { rewrite find_one_app_skip by exact Hl1. unfold find_one. cbn [List.find].
    replace (by_id claim_id (upd claim)) with (by_id claim_id claim) by reflexivity.
    now rewrite Hc. }
  split.
  - unfold status_of. now rewrite Hfind1.
  - apply (update_claim_status_unchanged _ _ _ _ _ (upd claim)); auto.
Qed.

Lemma update_claim_status_repeated_witness :
  exists cl1,
    update_claim_status "c2" Sample.approve Sample.officer 2000 Sample.four
    = (Return "Claim status updated successfully", cl1)
    /\ status_of "c2" cl1 = Some "approved"
    /\ update_claim_status "c2" Sample.approve Sample.officer 2000 cl1
       = (Raise (HTTPException 404 "Claim not found"), cl1).
Proof.
  destruct (update_claim_status_repeated "c2" Sample.approve Sample.officer 2000
              Sample.four Sample.c2 (or_introl eq_refl) eq_refl)
    as (cl1 & Hfirst & Hstatus & Hsecond).
  exists cl1. split; [|split; assumption].
  rewrite <- Hfirst. reflexivity.
Defined.

(** ** Uploads that are refused, and uploads in sequence *)

(** X9: an upload on an id that is not in the collection is answered 404
    "Claim not found", an upload by a Community User on a claim of somebody
    else 403 "Access denied"; in both cases the collection is left as it was
    and the answer does not depend on the language model. *)
Theorem upload_document_refused send_message claim_id filename current_user utcnow cl :
  (find_one (by_id claim_id) cl = None ->
   upload_document send_message claim_id filename current_user utcnow cl
   = (Raise (HTTPException 404 "Claim not found"), cl))
  /\ (forall claim,
        find_one (by_id claim_id) cl = Some claim ->
        User.role current_user = "Community User" ->
        Claim.user_id claim <> Some (User._id current_user) ->
        upload_document send_message claim_id filename current_user utcnow cl
        = (Raise (HTTPException 403 "Access denied"), cl)).
Proof.
  unfold upload_document. split.
  - now intros ->.
  - intros claim -> -> Hne. unfold by_user_id.
    now rewrite (bool_decide_eq_false_2 _ Hne).
Qed.

Lemma upload_document_refused_witness :
  upload_document Sample.down "c9" "patta.pdf" Sample.officer 3000 Sample.four
  = (Raise (HTTPException 404 "Claim not found"), Sample.four)
  /\ upload_document Sample.down "c2" "patta.pdf" Sample.villager 3000 Sample.four
     = (Raise (HTTPException 403 "Access denied"), Sample.four).
Proof.
  destruct (upload_document_refused Sample.down "c9" "patta.pdf" Sample.officer 3000
              Sample.four) as [Hmissing _].
  destruct (upload_document_refused Sample.down "c2" "patta.pdf" Sample.villager 3000
              Sample.four) as [_ Hdenied].
  split; [exact (Hmissing eq_refl)|].
  apply (Hdenied Sample.c2 eq_refl eq_refl). discriminate.
Defined.




(** ** The regional summary and the dashboard statistics *)

Lemma sum_groups_step f (d : Claim.doc -> Z) c groups :
  (forall g, f (accumulate c g) = f g + d c) ->
  (forall k, f (mkStateSummary k 0 0 0 0) = 0) ->
  sum_groups f (group_step c groups) = sum_groups f groups + d c.
Proof.
  intros Hacc Hzero. induction groups as [|g groups IH]; cbn [group_step sum_groups fold_right].
  - rewrite Hacc, Hzero. lia.
  - destruct (bool_decide (ss_id g = group_key c)); cbn [sum_groups fold_right].
    + rewrite Hacc. lia.
    + fold (sum_groups f (group_step c groups)). rewrite IH.
      fold (sum_groups f groups). lia.
Qed.

Lemma sum_groups_aggregate f (d : Claim.doc -> bool) cl :
  (forall c g, f (accumulate c g) = f g + (if d c then 1 else 0)) ->
  (forall k, f (mkStateSummary k 0 0 0 0) = 0) ->
  sum_groups f (aggregate_by_state cl) = count_documents d cl.
Proof.
  intros Hacc Hzero. induction cl as [|c cl IH] using rev_ind; [reflexivity|].
  rewrite aggregate_by_state_snoc, count_documents_snoc.
  rewrite (sum_groups_step f (fun c => if d c then 1 else 0)); auto.
  now rewrite IH.
Qed.

(** X11: the groups of the regional summary split the collection: their totals
    add up to the [total_claims] of the dashboard statistics, and their
    approved, pending and rejected counts add up to the statistics' approved,
    pending and rejected counts. *)
Theorem summary_adds_up_to_statistics cl :
  sum_groups ss_total_claims (aggregate_by_state cl) = total_claims (statistics cl)
  /\ sum_groups ss_approved (aggregate_by_state cl) = approved_claims (statistics cl)
  /\ sum_groups ss_pending (aggregate_by_state cl) = pending_claims (statistics cl)
  /\ sum_groups ss_rejected (aggregate_by_state cl) = rejected_claims (statistics cl)
  /\ sum_groups ss_total_claims (aggregate_by_state cl) = Z.of_nat (length cl).
Proof.
  unfold statistics.
  cbn [total_claims approved_claims pending_claims rejected_claims].
  repeat split.
  - now apply sum_groups_aggregate.
  - now apply sum_groups_aggregate.
  - now apply sum_groups_aggregate.
  - now apply sum_groups_aggregate.
  - rewrite <- count_documents_all. now apply sum_groups_aggregate.
Qed.

(** ** The mime type sent to the language model *)


Lemma string_app_nil b : "" +:+ b = b.
Proof. reflexivity. Qed.












(** * Properties of registration, login and authentication *)

Lemma find_one_user_none_email email (us : users) :
  find_one_user (by_email email) us = None -> ~ In email (map Account.email us).
Proof.
  unfold find_one_user. intros Hnone Hin. apply in_map_iff in Hin as (a & Hmail & Ha).
  apply (find_none _ _ Hnone) in Ha. unfold by_email in Ha.
  rewrite Hmail, String.eqb_refl in Ha. discriminate.
Qed.

Lemma find_one_user_last q (us : users) a :
  find_one_user q us = None -> q a = true -> find_one_user q (us ++ [a]) = Some a.
Proof.
  unfold find_one_user. induction us as [|x us IH]; cbn [app List.find].
  - intros _ ->. reflexivity.
  - destruct (q x); [discriminate | exact IH].
Qed.


Section Authentication.
Context {token : Type} (P : Primitives token).

(** What a registration does when the address is new and the generated [_id]
    is not taken. *)
Lemma register_user_ok user_data uuid4 salt utcnow1 utcnow2 us :
  find_one_user (by_email (UserRegister.email user_data)) us = None ->
  existsb (by_account_id uuid4) us = false ->
  let account :=
    Account.mk uuid4 (UserRegister.email user_data)
      (bcrypt_hashpw P (UserRegister.password user_data) salt)
      (UserRegister.full_name user_data) (UserRegister.role user_data)
      (UserRegister.phone user_data) (UserRegister.address user_data) utcnow1 in
  register_user P user_data uuid4 salt utcnow1 utcnow2 us
  = (Return (mkAuthResponse
               (create_jwt_token P (without_password account) utcnow2)
               (without_password account)),
     us ++ [account]).
Proof.
  intros Hmail Hid. cbv zeta. unfold register_user, insert_one_user.
  rewrite Hmail. cbn [Account._id]. now rewrite Hid.
Qed.

(** X13: a registration with an address that is already in [db.users] is
    answered 400 "Email already registered" and stores nothing, whatever the
    rest of the request. *)
Theorem register_user_existing_email user_data uuid4 salt utcnow1 utcnow2 us :
  In (UserRegister.email user_data) (map Account.email us) ->
  register_user P user_data uuid4 salt utcnow1 utcnow2 us
  = (Raise (HTTPException 400 "Email already registered"), us).
Proof.
  intros Hin. unfold register_user.
  destruct (find_one_user _ us) as [a|] eqn:Hfind; [reflexivity|].
  now apply find_one_user_none_email in Hfind.
Qed.

(** X14: registrations keep the addresses and the [_id]s of [db.users]
    pairwise different, and never remove or rewrite an account. *)
Theorem register_user_keeps_unique user_data uuid4 salt utcnow1 utcnow2 us :
  List.NoDup (map Account.email us) ->
  List.NoDup (map Account._id us) ->
  let us' := snd (register_user P user_data uuid4 salt utcnow1 utcnow2 us) in
  List.NoDup (map Account.email us')
  /\ List.NoDup (map Account._id us')
  /\ exists new, us' = us ++ new /\ (length new <= 1)%nat.
Proof.
  intros Hmails Hids. cbv zeta. unfold register_user, insert_one_user.
  destruct (find_one_user _ us) as [a|] eqn:Hfind.
  { cbn [snd]. split; [exact Hmails|]. split; [exact Hids|].
    exists []. split; [now rewrite app_nil_r | simpl; lia]. }
  cbn [Account._id].
  destruct (existsb (by_account_id uuid4) us) eqn:Hid.
  { cbn [snd]. split; [exact Hmails|]. split; [exact Hids|].
    exists []. split; [now rewrite app_nil_r | simpl; lia]. }
  cbn [snd]. rewrite !map_app. cbn [map Account.email Account._id].
  split; [|split].
  - apply List.NoDup_app. repeat split; auto.
    + constructor; [simpl; tauto | constructor].
    + intros k Hk [<-|[]]. now apply (find_one_user_none_email _ _ Hfind).
  - apply List.NoDup_app. repeat split; auto.
    + constructor; [simpl; tauto | constructor].
    + intros k Hk [<-|[]]. apply in_map_iff in Hk as (a & Ha & Hin).
      assert (existsb (by_account_id uuid4) us = true); [|congruence].
      apply existsb_exists. exists a. split; [exact Hin|].
      unfold by_account_id. rewrite Ha. apply String.eqb_refl.
  - eexists [_]. split; [reflexivity | simpl; lia].
Qed.

(** X15: after a registration that succeeded, a login with the same address
    and password succeeds and answers with the profile the registration
    answered with: the account's [_id], address, name and role, and no
    password.  It needs of [bcrypt] only that [checkpw] accepts a password
    against its own hash. *)
Theorem register_user_then_login user_data uuid4 salt utcnow1 utcnow2 utcnow us r us' :
  bcrypt_sound P ->
  register_user P user_data uuid4 salt utcnow1 utcnow2 us = (Return r, us') ->
  login_user P (UserLogin.mk (UserRegister.email user_data) (UserRegister.password user_data))
    utcnow us'
  = (Return (mkAuthResponse (create_jwt_token P (ar_user r) utcnow) (ar_user r)), us')
  /\ Profile._id (ar_user r) = uuid4
  /\ Profile.email (ar_user r) = UserRegister.email user_data
  /\ Profile.role (ar_user r) = UserRegister.role user_data.
Proof.
  intros Hbcrypt. unfold register_user, insert_one_user.
  destruct (find_one_user _ us) as [a|] eqn:Hfind; [discriminate|].
  cbn [Account._id].
  destruct (existsb (by_account_id uuid4) us) eqn:Hid; [discriminate|].
  intros [= <- <-]. cbn [ar_user]. split; [|repeat split].
  unfold login_user. cbn [UserLogin.email UserLogin.password].
  rewrite (find_one_user_last _ _ _ Hfind)
    by (unfold by_email; cbn [Account.email]; apply String.eqb_refl).
  cbn [Account.password]. now rewrite Hbcrypt.
Qed.

(** X16: a login with an address that is not registered and a login with a
    password that [checkpw] rejects get the same answer, 401 "Invalid
    credentials"; no login writes to [db.users]. *)
Theorem login_user_rejects login_data utcnow us :
  snd (login_user P login_data utcnow us) = us
  /\ (~ In (UserLogin.email login_data) (map Account.email us) ->
      login_user P login_data utcnow us
      = (Raise (HTTPException 401 "Invalid credentials"), us))
  /\ (forall user,
        find_one_user (by_email (UserLogin.email login_data)) us = Some user ->
        bcrypt_checkpw P (UserLogin.password login_data) (Account.password user) = false ->
        login_user P login_data utcnow us
        = (Raise (HTTPException 401 "Invalid credentials"), us)).
Proof.
  unfold login_user. split; [|split].
  - destruct (find_one_user _ us) as [user|]; [|reflexivity].
    now destruct (bcrypt_checkpw P _ _).
  - intros Hnot. destruct (find_one_user _ us) as [user|] eqn:Hfind; [|reflexivity].
    exfalso. apply Hnot. unfold find_one_user in Hfind.
    apply find_some in Hfind as [Hin Hmail]. unfold by_email in Hmail.
    apply String.eqb_eq in Hmail. rewrite <- Hmail. now apply in_map.
  - intros user -> ->. reflexivity.
Qed.




End Authentication.

(** ** The handlers run on the sample primitives *)

Lemma sample_bcrypt_sound : bcrypt_sound SampleAuth.primitives.
Proof. intros password salt. apply String.eqb_refl. Qed.


Lemma register_user_existing_email_witness :
  register_user SampleAuth.primitives SampleAuth.asha "a2" "pepper" 300 301
    SampleAuth.registered
  = (Raise (HTTPException 400 "Email already registered"), SampleAuth.registered).
Proof.
  apply register_user_existing_email. vm_compute. auto.
Defined.

Lemma register_user_keeps_unique_witness :
  List.NoDup (map Account.email
                (snd (register_user SampleAuth.primitives
                        (UserRegister.mk "ravi@example.org" "pw" "Ravi" "NGO" None None)
                        "a2" "pepper" 300 301 SampleAuth.registered)))
  /\ length (snd (register_user SampleAuth.primitives
                    (UserRegister.mk "ravi@example.org" "pw" "Ravi" "NGO" None None)
                    "a2" "pepper" 300 301 SampleAuth.registered)) = 2%nat.
Proof.
  destruct (register_user_keeps_unique SampleAuth.primitives
              (UserRegister.mk "ravi@example.org" "pw" "Ravi" "NGO" None None)
              "a2" "pepper" 300 301 SampleAuth.registered
              ltac:(repeat constructor; simpl; tauto)
              ltac:(repeat constructor; simpl; tauto)) as (Hmails & _ & _).
  split; [exact Hmails | reflexivity].
Defined.

Lemma register_user_then_login_witness :
  exists r,
    login_user SampleAuth.primitives (UserLogin.mk "asha@example.org" "s3cret") 200
      SampleAuth.registered = (Return r, SampleAuth.registered)
    /\ Profile._id (ar_user r) = "a1"
    /\ Profile.role (ar_user r) = "District Officer".
Proof.
  destruct (register_user_then_login SampleAuth.primitives SampleAuth.asha "a1" "salt"
              100 101 200 [] _ _ sample_bcrypt_sound eq_refl) as (Hlogin & Hid & _ & Hrole).
  eexists. split; [exact Hlogin|]. split; [exact Hid | exact Hrole].
Defined.

Lemma login_user_rejects_witness :
  login_user SampleAuth.primitives (UserLogin.mk "asha@example.org" "guess") 200
    SampleAuth.registered
  = (Raise (HTTPException 401 "Invalid credentials"), SampleAuth.registered)
  /\ login_user SampleAuth.primitives (UserLogin.mk "nobody@example.org" "s3cret") 200
       SampleAuth.registered
     = (Raise (HTTPException 401 "Invalid credentials"), SampleAuth.registered).
Proof.
  destruct (login_user_rejects SampleAuth.primitives
              (UserLogin.mk "asha@example.org" "guess") 200 SampleAuth.registered)
    as (_ & _ & Hwrong).
  destruct (login_user_rejects SampleAuth.primitives
              (UserLogin.mk "nobody@example.org" "s3cret") 200 SampleAuth.registered)
    as (_ & Hunknown & _).
  split.
  - eapply Hwrong; reflexivity.
  - apply Hunknown. vm_compute. intuition discriminate.
Defined.



(** * Uploads, creations and the dashboard figures *)

Lemma group_step_same_figures c c' groups :
  Claim.status c' = Claim.status c ->
  Claim.location c' = Claim.location c ->
  group_step c' groups = group_step c groups.
Proof.
  intros Hs Hl.
  assert (Hk : group_key c' = group_key c) by (unfold group_key; now rewrite Hl).
  assert (Ha : forall g, accumulate c' g = accumulate c g)
    by (intros g; unfold accumulate, cond_status, by_status; now rewrite Hs).
  induction groups as [|g groups IH]; cbn [group_step]; rewrite Hk, Ha; [reflexivity|].
  now rewrite IH.
Qed.

Lemma aggregate_by_state_replace l1 c c' l2 :
  Claim.status c' = Claim.status c ->
  Claim.location c' = Claim.location c ->
  aggregate_by_state (l1 ++ c' :: l2) = aggregate_by_state (l1 ++ c :: l2).
Proof.
  intros Hs Hl. unfold aggregate_by_state. rewrite !fold_left_app. cbn [fold_left].
  now rewrite (group_step_same_figures c c' _ Hs Hl).
Qed.

Lemma count_documents_by_status_replace s l1 c c' l2 :
  Claim.status c' = Claim.status c ->
  count_documents (by_status s) (l1 ++ c' :: l2)
  = count_documents (by_status s) (l1 ++ c :: l2).
Proof.
  intros Hs. unfold count_documents. rewrite !List.filter_app. cbn [List.filter].
  replace (by_status s c') with (by_status s c)
    by (unfold by_status; now rewrite Hs).
  rewrite !length_app. now destruct (by_status s c).
Qed.

Lemma statistics_replace l1 c c' l2 :
  Claim.status c' = Claim.status c ->
  statistics (l1 ++ c' :: l2) = statistics (l1 ++ c :: l2).
Proof.
  intros Hs. unfold statistics.
  rewrite !(count_documents_by_status_replace _ l1 c c' l2 Hs).
  rewrite !count_documents_all, !length_app. reflexivity.
Qed.

Lemma upload_document_snd_shape send_message claim_id filename current_user utcnow cl :
  snd (upload_document send_message claim_id filename current_user utcnow cl) = cl
  \/ exists l1 c l2 file_path note,
       cl = l1 ++ c :: l2
       /\ snd (upload_document send_message claim_id filename current_user utcnow cl)
          = l1 ++ push_document file_path note utcnow c :: l2.
Proof.
  destruct (upload_document_snd send_message claim_id filename current_user utcnow cl)
    as [->|[note ->]]; [now left|].
  destruct (update_one_snd (by_id claim_id)
              (push_document (upload_path claim_id filename) note utcnow) cl)
    as [->|(l1 & c & l2 & -> & _ & ->)]; [now left|].
  right. now exists l1, c, l2, (upload_path claim_id filename), note.
Qed.

(** X19: an upload, accepted or refused, moves none of the dashboard figures:
    the statistics, the regional summary and the map data computed after it
    are those computed before it. *)
Theorem upload_document_keeps_dashboards send_message claim_id filename current_user
    utcnow cl any_user :
  let cl' := snd (upload_document send_message claim_id filename current_user utcnow cl) in
  statistics cl' = statistics cl
  /\ aggregate_by_state cl' = aggregate_by_state cl
  /\ fst (get_map_data any_user cl') = fst (get_map_data any_user cl).
Proof.
  cbv zeta.
  destruct (upload_document_snd_shape send_message claim_id filename current_user utcnow cl)
    as [->|(l1 & c & l2 & p & note & -> & ->)]; [repeat split|].
  split; [now apply statistics_replace|].
  split; [now apply aggregate_by_state_replace|].
  unfold get_map_data, find_all. cbn [fst]. f_equal.
  rewrite !List.filter_app, !map_app. cbn [List.filter push_document Claim.location].
  destruct (truthy (Claim.location c)); reflexivity.
Qed.

(** X20: a claim that is created counts at once: the total of the dashboard
    statistics grows by one, and of the approved, pending and rejected counts
    exactly the one of the new claim's status, if it is one of these three,
    grows by one. *)
Theorem create_claim_counts claim_data current_user uuid4 utcnow1 utcnow2 cl :
  existsb (by_id uuid4) cl = false ->
  let cl' := snd (create_claim claim_data current_user uuid4 utcnow1 utcnow2 cl) in
  let one s := if String.eqb (FRAClaim.status claim_data) s then 1 else 0 in
  total_claims (statistics cl') = total_claims (statistics cl) + 1
  /\ approved_claims (statistics cl') = approved_claims (statistics cl) + one "approved"
  /\ pending_claims (statistics cl') = pending_claims (statistics cl) + one "pending"
  /\ rejected_claims (statistics cl') = rejected_claims (statistics cl) + one "rejected"
  /\ sum_groups ss_total_claims (aggregate_by_state cl')
     = sum_groups ss_total_claims (aggregate_by_state cl) + 1.
Proof.
  intros Hfresh. cbv zeta.
  destruct (create_claim_cases claim_data current_user uuid4 utcnow1 utcnow2 cl)
    as [[Hdup _]|[_ (c & -> & _ & _ & _ & _ & Hstatus & _)]]; [congruence|].
  cbn [snd]. unfold statistics.
  cbn [total_claims approved_claims pending_claims rejected_claims].
  rewrite !count_documents_snoc.
  assert (Hb : forall s, by_status s c = String.eqb (FRAClaim.status claim_data) s)
    by (intros s; unfold by_status; now rewrite Hstatus).
  rewrite !Hb. repeat split.
  rewrite !(sum_groups_aggregate ss_total_claims (fun _ => true)) by auto.
  now rewrite count_documents_snoc.
Qed.

Lemma create_claim_counts_witness :
  total_claims
    (statistics
       (snd (create_claim (FRAClaim_of_body Sample.spoofed "m1" 1500 1500)
               Sample.villager "c5" 1501 1502 Sample.four))) = 5
  /\ approved_claims
       (statistics
          (snd (create_claim (FRAClaim_of_body Sample.spoofed "m1" 1500 1500)
                  Sample.villager "c5" 1501 1502 Sample.four))) = 2.
Proof.
  destruct (create_claim_counts (FRAClaim_of_body Sample.spoofed "m1" 1500 1500)
              Sample.villager "c5" 1501 1502 Sample.four eq_refl)
    as (Htotal & Happroved & _).
  split; [exact Htotal | exact Happroved].
Defined.

(** * The token of a login *)



